(** * lochness.box: verified-download core

    A shallow embedding of [lochness/box/__init__.py]: the configuration
    lookups, the local destination rule, the remote tree walk and the
    download pipeline ([save], [hash_retry], [_save], [_savetemp],
    [_delete]), together with the properties the specification states about
    them.

    Conventions of the model
    - Python values that the module only inspects (configuration entries,
      the encryption key) are values of [pyval]; dictionaries are finite maps.
    - The local filesystem is a finite map from path strings to nodes.  A file
      is identified with its path string: the model does not resolve [.],
      [..], repeated separators, symbolic links or the working directory.
    - Effects are threaded through a state-and-exception monad over [World];
      every filesystem mutation, remote call and log record is also appended
      to the world's trace, so that the order of effects can be stated. *)

From Stdlib Require Import Ascii String.
From stdpp Require Import base strings list gmap pretty.

Set Warnings "-register-all".

Local Open Scope string_scope.

(** ** Python values *)

Inductive pyval : Type :=
  | VNone
  | VBool (b : bool)
  | VInt (z : Z)
  | VStr (s : string)
  | VBytes (bs : list Byte.byte)
  | VDict (d : gmap string pyval).

(** [isinstance(v, bool)] *)
Definition isinstance_bool (v : pyval) : bool :=
  match v with VBool _ => true | _ => false end.

(** Truth value testing, as [if v:] performs it. *)
Definition truthy (v : pyval) : bool :=
  match v with
  | VNone => false
  | VBool b => b
  | VInt z => negb (z =? 0)%Z
  | VStr s => negb (String.eqb s "")
  | VBytes bs => match bs with [] => false | _ => true end
  | VDict d => negb (bool_decide (d = ∅))
  end.

(** ** Exceptions *)

(** The error of a dropbox [ApiError], as far as the module inspects it:
    [e.error.is_path()] and [e.error.get_path().is_not_found()]. *)
Record api_error : Type := mkApiError {
  is_path : bool;
  path_is_not_found : bool
}.

Inductive exn : Type :=
  | ApiError (e : api_error)                     (* dropbox.exceptions.ApiError *)
  | DownloadError (msg : string)
  | DeletionError (msg : string)
  | HashRetryError
  | BoxHashError (msg : string) (filename : string)
  | AttributeError (msg : string)
  | FileNotFoundError (path : string)
  | FileExistsError (path : string)
  | NotADirectoryError (path : string)
  | IsADirectoryError (path : string)
  | OtherError (cls : string) (msg : string).    (* any other exception class *)

Inductive result (A : Type) : Type :=
  | Ok (a : A)
  | Raise (e : exn).
Arguments Ok {A} a.
Arguments Raise {A} e.

(** What a call to the storage provider can fail with: a dropbox [ApiError],
    the one class the module has handlers for, or an exception of any other
    class (the Box SDK's own exceptions, network errors, ...). *)
Inductive provider_error : Type :=
  | ApiFailure (e : api_error)
  | OtherFailure (cls : string) (msg : string).

Definition exn_of_provider_error (pe : provider_error) : exn :=
  match pe with
  | ApiFailure e => ApiError e
  | OtherFailure cls msg => OtherError cls msg
  end.

Inductive response (A : Type) : Type :=
  | Answer (a : A)
  | Failure (pe : provider_error).
Arguments Answer {A} a.
Arguments Failure {A} pe.

(** ** Configuration lookups *)

(** [obj.get(key, default)]: a dictionary answers, anything else has no
    attribute [get]. *)
Definition py_get (obj : pyval) (key : string) (dflt : pyval) : result pyval :=
  match obj with
  | VDict d => Ok (default dflt (d !! key))
  | _ => Raise (AttributeError "object has no attribute 'get'")
  end.

(** [delete_on_success(Lochness, module_name)] *)
Definition delete_on_success (Lochness : pyval) (module_name : string) : result bool :=
  match py_get Lochness "box" (VDict ∅) with
  | Raise e => Raise e
  | Ok box =>
    match py_get box module_name (VDict ∅) with
    | Raise e => Raise e
    | Ok section =>
      match py_get section "delete_on_success" (VBool false) with
      | Raise e => Raise e
      | Ok value =>
        (* if this is anything but a boolean, just return False *)
        if negb (isinstance_bool value) then Ok false
        else match value with VBool b => Ok b | _ => Ok false end
      end
    end
  end.

(** [base(Lochness, module_name)] *)
Definition base (Lochness : pyval) (module_name : string) : result pyval :=
  match py_get Lochness "box" (VDict ∅) with
  | Raise e => Raise e
  | Ok box =>
    match py_get box module_name (VDict ∅) with
    | Raise e => Raise e
    | Ok section => py_get section "base" (VStr "")
    end
  end.

(** The value configured at [Lochness['box'][module_name]['delete_on_success']],
    for a configuration whose sections are mappings: [None] when a key on the
    way is absent. *)
Inductive configured (Lochness : pyval) (module_name : string) : option pyval -> Prop :=
  | configured_no_box top :
      Lochness = VDict top -> top !! "box" = None ->
      configured Lochness module_name None
  | configured_no_module top box :
      Lochness = VDict top -> top !! "box" = Some (VDict box) ->
      box !! module_name = None ->
      configured Lochness module_name None
  | configured_no_flag top box section :
      Lochness = VDict top -> top !! "box" = Some (VDict box) ->
      box !! module_name = Some (VDict section) ->
      section !! "delete_on_success" = None ->
      configured Lochness module_name None
  | configured_flag top box section value :
      Lochness = VDict top -> top !! "box" = Some (VDict box) ->
      box !! module_name = Some (VDict section) ->
      section !! "delete_on_success" = Some value ->
      configured Lochness module_name (Some value).

(** ** Paths (posixpath) *)

Definition sep : ascii := "/"%char.

Definition startswith_sep (s : string) : bool :=
  match s with String c _ => Ascii.eqb c sep | EmptyString => false end.

Fixpoint endswith_sep (s : string) : bool :=
  match s with
  | EmptyString => false
  | String c EmptyString => Ascii.eqb c sep
  | String _ s' => endswith_sep s'
  end.

(** [os.path.join(a, b)] *)
Definition path_join (a b : string) : string :=
  if startswith_sep b then b
  else if (String.eqb a "" || endswith_sep a)%bool then a ++ b
  else a ++ "/" ++ b.

(** [p[:p.rfind('/') + 1]], computed on the reversed character list. *)
Fixpoint drop_to_sep (rev_p : list ascii) : list ascii :=
  match rev_p with
  | [] => []
  | c :: rest => if Ascii.eqb c sep then rev_p else drop_to_sep rest
  end.

Fixpoint strip_seps (rev_p : list ascii) : list ascii :=
  match rev_p with
  | [] => []
  | c :: rest => if Ascii.eqb c sep then strip_seps rest else rev_p
  end.

(** [os.path.dirname(p)]: the head up to the last separator, with trailing
    separators stripped unless the head consists of separators only. *)
Definition path_dirname (p : string) : string :=
  let head := drop_to_sep (rev (list_ascii_of_string p)) in
  match strip_seps head with
  | [] => string_of_list_ascii (rev head)
  | stripped => string_of_list_ascii (rev stripped)
  end.

(** ** Local destination *)

(** The remote path, the extension and the local path that [save] computes
    before it touches anything. *)

(** [box_fullpath = os.path.join(box_path_root, box_path_name)] *)
Definition save_box_fullpath (box_path_tuple : string * string) : string :=
  let '(box_path_root, box_path_name) := box_path_tuple in
  path_join box_path_root box_path_name.

(** [ext = '.lock' if key else ''; ext = ext + '.gz' if compress else ext] *)
Definition save_ext (key : pyval) (compress : bool) : string :=
  let ext := if truthy key then ".lock" else "" in
  let ext := if compress then ext ++ ".gz" else ext in
  ext.

(** [local_fullfile = os.path.join(out_base, box_path_name + ext)] *)
Definition save_local_fullfile (box_path_tuple : string * string) (out_base : string)
    (key : pyval) (compress : bool) : string :=
  let '(box_path_root, box_path_name) := box_path_tuple in
  path_join out_base (box_path_name ++ save_ext key compress).

(** ** Remote objects *)

(** A Box item as the module uses it: [type], [name], the listing that
    [get_items()] returns for a folder, and what the provider answers to
    [content()] and [delete()]. *)
Inductive box_object : Type :=
  BoxObject (type name : string) (items : list box_object)
            (content : response (list Byte.byte)) (delete : response unit).

Definition obj_type (o : box_object) : string :=
  match o with BoxObject t _ _ _ _ => t end.
Definition obj_name (o : box_object) : string :=
  match o with BoxObject _ n _ _ _ => n end.
Definition get_items (o : box_object) : list box_object :=
  match o with BoxObject _ _ l _ _ => l end.
Definition obj_content (o : box_object) : response (list Byte.byte) :=
  match o with BoxObject _ _ _ c _ => c end.
Definition obj_delete (o : box_object) : response unit :=
  match o with BoxObject _ _ _ _ d => d end.

(** [file_or_folder.type == 'folder'] *)
Definition is_folder (o : box_object) : bool := String.eqb (obj_type o) "folder".

(** ** Tree walk *)

(** What the generator does, in order: a listing call on a folder, or a
    triple handed to the consumer. *)
Inductive walk_step : Type :=
  | GetItems (folder : box_object)
  | Yield (root : string) (box_folder_objects box_file_objects : list box_object).

(** [walk_from_folder_object(root, box_folder_object)].  The loop over
    [box_folder_objects] is written as a loop over the listing that skips the
    entries that are not folders, which keeps the recursion structural;
    [walk_from_folder_object_unfold] below restates it over the filtered
    list, as the source has it. *)
Fixpoint walk_from_folder_object (root : string) (box_folder_object : box_object)
    : list walk_step :=
  match box_folder_object with
  | BoxObject _ _ listing _ _ =>
    let box_folder_objects := List.filter is_folder listing in
    let box_file_objects := List.filter (fun o => negb (is_folder o)) listing in
    GetItems box_folder_object
    :: Yield root box_folder_objects box_file_objects
    :: flat_map (fun box_dir_object =>
                   if is_folder box_dir_object then
                     let new_root := path_join root (obj_name box_dir_object) in
                     walk_from_folder_object new_root box_dir_object
                   else [])
                listing
  end.

(** The triples the consumer receives. *)
Fixpoint yields (steps : list walk_step) : list (string * list box_object * list box_object) :=
  match steps with
  | [] => []
  | GetItems _ :: rest => yields rest
  | Yield r ds fs :: rest => (r, ds, fs) :: yields rest
  end.

(** [get_box_object_based_on_name], given the listing of the parent folder:
    the first folder entry with the requested name, [None] when there is
    none. *)
Fixpoint find_folder (box_folder_name : string) (listing : list box_object)
    : option box_object :=
  match listing with
  | [] => None
  | o :: rest =>
    if (is_folder o && String.eqb (obj_name o) box_folder_name)%bool then Some o
    else find_folder box_folder_name rest
  end.

(** ** The local filesystem and the world *)

Inductive node : Type :=
  | Dir
  | File (data : list Byte.byte) (mode : Z).

Inductive event : Type :=
  | EvContent (name : string)              (* box_file_object.content() *)
  | EvRemoteDelete (name : string)         (* box_file_object.delete() *)
  | EvLog (level msg : string)
  | EvMkdir (path : string)
  | EvCreate (path : string)               (* exclusive creation, mode 0600 *)
  | EvWrite (path : string) (b : Byte.byte)
  | EvFlush (path : string)
  | EvFsync (path : string)
  | EvClose (path : string)
  | EvChmod (path : string) (mode : Z)
  | EvRename (src dst : string)
  | EvRemove (path : string).

(** The effect of one event on the filesystem. *)
Definition apply_event (e : event) (fs : gmap string node) : gmap string node :=
  match e with
  | EvMkdir p => <[p := Dir]> fs
  | EvCreate p => <[p := File [] 384]> fs
  | EvWrite p b =>
    match fs !! p with
    | Some (File d m) => <[p := File (d ++ [b]) m]> fs
    | _ => fs
    end
  | EvChmod p m =>
    match fs !! p with
    | Some (File d _) => <[p := File d m]> fs
    | _ => fs
    end
  | EvRename src dst =>
    match fs !! src with
    | Some n => <[dst := n]> (delete src fs)
    | None => fs
    end
  | EvRemove p => delete p fs
  | _ => fs
  end.

Definition replay (evs : list event) (fs : gmap string node) : gmap string node :=
  fold_left (fun f e => apply_event e f) evs fs.

(** [tmpnames] is the sequence of random names that [tempfile] will draw,
    [tempdir] what [tempfile.gettempdir()] answers. *)
Record World : Type := mkWorld {
  fs : gmap string node;
  tmpnames : list string;
  tempdir : string;
  trace : list event
}.

(** ** State and exception monad *)

Definition M (A : Type) : Type := World -> result A * World.

Definition ret {A} (a : A) : M A := fun w => (Ok a, w).
Definition raise {A} (e : exn) : M A := fun w => (Raise e, w).
Definition bind {A B} (m : M A) (k : A -> M B) : M B :=
  fun w => match m w with
           | (Ok a, w') => k a w'
           | (Raise e, w') => (Raise e, w')
           end.

(** [try: m except ...: handler]; [handler e = None] when no clause
    matches [e]. *)
Definition try_except {A} (m : M A) (handler : exn -> option (M A)) : M A :=
  fun w => match m w with
           | (Ok a, w') => (Ok a, w')
           | (Raise e, w') =>
             match handler e with
             | Some h => h w'
             | None => (Raise e, w')
             end
           end.

Declare Scope monad_scope.
Delimit Scope monad_scope with monad.
Notation "x <- m ;; k" := (bind m (fun x => k))
  (at level 100, m at level 99, k at level 200, right associativity) : monad_scope.
Notation "m ;; k" := (bind m (fun _ => k))
  (at level 100, k at level 200, right associativity) : monad_scope.
Local Open Scope monad_scope.

Definition get_world : M World := fun w => (Ok w, w).

(** Record an event and apply it to the filesystem. *)
Definition emit (e : event) : M unit :=
  fun w => (Ok tt, mkWorld (apply_event e (fs w)) (tmpnames w) (tempdir w)
                           (trace w ++ [e])).

Definition log (level msg : string) : M unit := emit (EvLog level msg).

(** ** Operating-system and provider primitives *)

(** [os.path.exists(p)] *)
Definition os_path_exists (p : string) : M bool :=
  fun w => (Ok (bool_decide (is_Some (fs w !! p))), w).

(** [os.mkdir(p)] *)
Definition os_mkdir (p : string) : M unit :=
  w <- get_world;;
  if String.eqb p "" then raise (FileNotFoundError p)
  else match fs w !! p with
  | Some _ => raise (FileExistsError p)
  | None =>
    let parent := path_dirname p in
    if (String.eqb parent "" || String.eqb parent p)%bool then emit (EvMkdir p)
    else match fs w !! parent with
         | Some Dir => emit (EvMkdir p)
         | Some (File _ _) => raise (NotADirectoryError p)
         | None => raise (FileNotFoundError p)
         end
  end.

(** [os.path.basename(p)], on the reversed character list. *)
Fixpoint take_to_sep (rev_p : list ascii) : list ascii :=
  match rev_p with
  | [] => []
  | c :: rest => if Ascii.eqb c sep then [] else c :: take_to_sep rest
  end.

Definition path_basename (p : string) : string :=
  string_of_list_ascii (rev (take_to_sep (rev (list_ascii_of_string p)))).

(** [os.path.split(p)] *)
Definition path_split (p : string) : string * string :=
  (path_dirname p, path_basename p).

(** The first lines of [os.makedirs]:
    [head, tail = path.split(name)], and once more on [head] when [tail] is
    empty. *)
Definition makedirs_split (name : string) : string * string :=
  let '(head, tail) := path_split name in
  if String.eqb tail "" then path_split head else (head, tail).

(** [os.makedirs(name)]: create the missing ancestors, then the leaf.  The
    recursion on the head is bounded by the length of the name.  (The
    standard library's shortcut for a last component [.] is left out, in
    line with the convention that paths are taken literally.) *)
Fixpoint makedirs_rec (fuel : nat) (name : string) : M unit :=
  let head := fst (makedirs_split name) in
  let tail := snd (makedirs_split name) in
  head_exists <- os_path_exists head;;
  (if (negb (String.eqb head "") && negb (String.eqb tail "") && negb head_exists)%bool
   then match fuel with
        | S n => try_except (makedirs_rec n head)
                   (fun e => match e with
                             | FileExistsError _ => Some (ret tt)
                             | _ => None
                             end)
        | O => ret tt
        end
   else ret tt);;
  os_mkdir name.

Definition os_makedirs (name : string) : M unit :=
  makedirs_rec (String.length name) name.

(** The first candidate name that is free in [dir], and the candidates left. *)
Fixpoint first_free (f : gmap string node) (dir : string) (candidates : list string)
    : option (string * list string) :=
  match candidates with
  | [] => None
  | c :: rest =>
    let file := path_join dir ("." ++ c) in
    match f !! file with
    | None => Some (file, rest)
    | Some _ => first_free f dir rest
    end
  end.

(** [tf.NamedTemporaryFile(dir=dir, prefix='.', delete=False)]: exclusive
    creation of a fresh dot-prefixed file in [dir]; answers its name. *)
Definition NamedTemporaryFile (dir : string) : M string :=
  fun w =>
    match fs w !! dir with
    | None => (Raise (FileNotFoundError dir), w)
    | Some (File _ _) => (Raise (NotADirectoryError dir), w)
    | Some Dir =>
      match first_free (fs w) dir (tmpnames w) with
      | None =>
        (Raise (FileExistsError "No usable temporary file name found"),
         mkWorld (fs w) [] (tempdir w) (trace w))
      | Some (file, rest) =>
        (Ok file, mkWorld (apply_event (EvCreate file) (fs w)) rest (tempdir w)
                          (trace w ++ [EvCreate file]))
      end
    end.

(** [fo.write(data)]: the bytes reach the file one after the other. *)
Fixpoint file_write (fo : string) (data : list Byte.byte) : M unit :=
  match data with
  | [] => ret tt
  | b :: rest => emit (EvWrite fo b);; file_write fo rest
  end.

Definition file_flush (fo : string) : M unit := emit (EvFlush fo).
Definition os_fsync (fo : string) : M unit := emit (EvFsync fo).
Definition file_close (fo : string) : M unit := emit (EvClose fo).

(** [os.chmod(p, mode)] *)
Definition os_chmod (p : string) (mode : Z) : M unit :=
  w <- get_world;;
  match fs w !! p with
  | None => raise (FileNotFoundError p)
  | Some _ => emit (EvChmod p mode)
  end.

(** [os.rename(src, dst)] *)
Definition os_rename (src dst : string) : M unit :=
  w <- get_world;;
  match fs w !! src with
  | None => raise (FileNotFoundError src)
  | Some n =>
    let parent := path_dirname dst in
    let parent_ok :=
      (String.eqb parent "" ||
       match fs w !! parent with Some Dir => true | _ => false end)%bool in
    if negb parent_ok then raise (FileNotFoundError dst)
    else match n, fs w !! dst with
         | File _ _, Some Dir => raise (IsADirectoryError dst)
         | Dir, Some (File _ _) => raise (NotADirectoryError dst)
         | _, _ => emit (EvRename src dst)
         end
  end.

(** [os.remove(p)] *)
Definition os_remove (p : string) : M unit :=
  w <- get_world;;
  match fs w !! p with
  | None => raise (FileNotFoundError p)
  | Some Dir => raise (IsADirectoryError p)
  | Some (File _ _) => emit (EvRemove p)
  end.

(** [box_file_object.content()] *)
Definition box_content (o : box_object) : M (list Byte.byte) :=
  emit (EvContent (obj_name o));;
  match obj_content o with
  | Answer c => ret c
  | Failure pe => raise (exn_of_provider_error pe)
  end.

(** [box_file_object.delete()] *)
Definition box_delete (o : box_object) : M unit :=
  emit (EvRemoteDelete (obj_name o));;
  match obj_delete o with
  | Answer _ => ret tt
  | Failure pe => raise (exn_of_provider_error pe)
  end.

Definition CHUNK_SIZE : Z := 1024.

(** ** The download pipeline *)

Section Pipeline.

(** What [gzip.GzipFile] writes for a file name and its data. *)
Variable gzip_compress : string -> list Byte.byte -> list Byte.byte.
(** [crypt.encrypt(content, key, chunk_size)] *)
Variable crypt_encrypt : list Byte.byte -> pyval -> Z -> list Byte.byte.
(** The hex digest [verify] computes for the bytes of a file, read through
    the decompression and decryption layers that [compress] and [key]
    select. *)
Variable content_digest : list Byte.byte -> pyval -> bool -> string.
(** The call [verify(tmp_name, md.content_hash, key=key, compress=compress)]
    in [_save] is commented out in the source: [verification = None] is the
    source.  [Some content_hash] is the pipeline with that call in place,
    for the provider-reported hash [content_hash]; the source as it is
    cannot reach it ([md] is not bound, and the import of the hasher's
    module is commented out as well), so what is said of the source is said
    at [None], or for every value of [verification]. *)
Variable verification : option string.

(** [hash_retry(n)]: the loop [while attempts <= n], by recursion on the
    number [n + 1 - attempts] of iterations left. *)
Fixpoint hash_retry_loop {A} (n : nat) (func : M A) (remaining attempts : nat) : M A :=
  match remaining with
  | O => raise HashRetryError
  | S k =>
    try_except func
      (fun e =>
         match e with
         | BoxHashError message filename =>
           Some (let msg := "attempt " ++ pretty attempts ++ "/" ++ pretty n
                            ++ " failed with error: " ++ message in
                 log "warning" msg;;
                 os_remove filename;;
                 hash_retry_loop n func k (attempts + 1))
         | _ => None
         end)
  end.

Definition hash_retry {A} (n : nat) (func : M A) : M A :=
  hash_retry_loop n func n 1.

(** [_delete(box_file_object, box_fullpath)] *)
Definition _delete (box_file_object : box_object) (box_fullpath : string) : M unit :=
  try_except (box_delete box_file_object)
    (fun e =>
       match e with
       | ApiError _ => Some (raise (DeletionError ("error deleting file " ++ box_fullpath)))
       | _ => None
       end).

(** [_savetemp(content, dirname, compress)] *)
Definition _savetemp (content : list Byte.byte) (dirname : string) (compress : bool)
    : M string :=
  w <- get_world;;
  let dirname := if String.eqb dirname "" then tempdir w else dirname in
  fo <- NamedTemporaryFile dirname;;
  file_write fo (if compress then gzip_compress fo content else content);;
  file_flush fo;;
  os_fsync fo;;
  file_close fo;;
  ret fo.

(** [verify(f, content_hash, key, compress)], with the hasher of the module
    whose import is commented out in the source as the parameter
    [content_digest].  As the source stands the name [hash] is the builtin,
    so the function cannot get past its first line, and nothing calls it:
    it enters the pipeline only through [verification = Some _]. *)
Definition verify (f content_hash : string) (key : pyval) (compress : bool) : M unit :=
  w <- get_world;;
  match fs w !! f with
  | None => raise (FileNotFoundError f)
  | Some Dir => raise (IsADirectoryError f)
  | Some (File data _) =>
    if negb (String.eqb (content_digest data key compress) content_hash)
    then raise (BoxHashError ("hash mismatch detected for " ++ f) f)
    else ret tt
  end.

(** The body of [_save], before decoration. *)
Definition _save_body (box_file_object : box_object)
    (box_fullpath local_fullfile : string) (key : pyval) (compress : bool) : M unit :=
  content <- try_except (box_content box_file_object)
    (fun e =>
       match e with
       | ApiError err =>
         if (is_path err && path_is_not_found err)%bool
         then Some (raise (DownloadError ("error downloading file " ++ box_fullpath)))
         else Some (raise e)
       | _ => None
       end);;
  let local_dirname := path_dirname local_fullfile in
  log "info" ("saving " ++ box_fullpath ++ " to " ++ local_fullfile ++ " ");;
  tmp_name <- (if truthy key then
                 let _stream := crypt_encrypt content key CHUNK_SIZE in
                 _savetemp content local_dirname compress
               else
                 _savetemp content local_dirname compress);;
  log "debug" ("verifying temporary file " ++ tmp_name);;
  match verification with
  | Some content_hash => verify tmp_name content_hash key compress
  | None => ret tt
  end;;
  os_chmod tmp_name 420;;
  os_rename tmp_name local_fullfile.

(** [@hash_retry(3) def _save(...)] *)
Definition _save (box_file_object : box_object)
    (box_fullpath local_fullfile : string) (key : pyval) (compress : bool) : M unit :=
  hash_retry 3 (_save_body box_file_object box_fullpath local_fullfile key compress).

(** [save(box_file_object, box_path_tuple, out_base, key, compress, delete, dry)] *)
Definition save (box_file_object : box_object) (box_path_tuple : string * string)
    (out_base : string) (key : pyval) (compress delete dry : bool) : M unit :=
  let box_fullpath := save_box_fullpath box_path_tuple in
  let local_fullfile := save_local_fullfile box_path_tuple out_base key compress in
  found <- os_path_exists local_fullfile;;
  if found then ret tt
  else
    let local_dirname := path_dirname local_fullfile in
    dir_found <- os_path_exists local_dirname;;
    (if negb dir_found then os_makedirs local_dirname else ret tt);;
    if negb dry then
      try_except
        (_save box_file_object box_fullpath local_fullfile key compress;;
         if delete then
           log "debug" ("deleting file on box " ++ box_fullpath);;
           _delete box_file_object box_fullpath
         else ret tt)
        (fun e =>
           match e with
           | HashRetryError =>
             Some (raise (DownloadError
                            ("too many failed attempts downloading " ++ box_fullpath)))
           | _ => None
           end)
    else ret tt.

End Pipeline.

(** ** Runs of the pipeline

    The outcomes of one attempt ([_save_body]) and of the retry loop around
    it, as relations between the world before, the result and the world
    after.  [_save_body_run] and [hash_retry_loop_run] below show that every
    run of the code is one of these. *)

(** The world [w] with a new filesystem and name supply, and [evs] appended
    to its trace. *)
Definition extend (w : World) (f : gmap string node) (names : list string)
    (evs : list event) : World :=
  mkWorld f names (tempdir w) (trace w ++ evs).

(** The directory [_savetemp] creates its file in. *)
Definition savetemp_dir (w : World) (dirname : string) : string :=
  if String.eqb dirname "" then tempdir w else dirname.

(** The paths [NamedTemporaryFile] may choose in [dir]. *)
Definition tmp_candidates (dir : string) (names : list string) : list string :=
  List.map (fun c => path_join dir ("." ++ c)) names.

(** The events of [_savetemp] for the temp file [t] and the bytes [data]. *)
Definition savetemp_events (t : string) (data : list Byte.byte) : list event :=
  EvCreate t :: List.map (EvWrite t) data ++ [EvFlush t; EvFsync t; EvClose t].

(** The events of one attempt up to the verification step. *)
Definition attempt_events (name box_fullpath local_fullfile t : string)
    (data : list Byte.byte) : list event :=
  [EvContent name;
   EvLog "info" ("saving " ++ box_fullpath ++ " to " ++ local_fullfile ++ " ")]
  ++ savetemp_events t data
  ++ [EvLog "debug" ("verifying temporary file " ++ t)].

(** The events with which the retry loop answers a hash mismatch. *)
Definition mismatch_events (n attempts : nat) (message t : string) : list event :=
  [EvLog "warning" ("attempt " ++ pretty attempts ++ "/" ++ pretty n
                    ++ " failed with error: " ++ message);
   EvRemove t].

(** The exception [_save_body] raises when [content()] fails. *)
Definition fetch_error (box_fullpath : string) (pe : provider_error) : exn :=
  match pe with
  | ApiFailure err =>
    if (is_path err && path_is_not_found err)%bool
    then DownloadError ("error downloading file " ++ box_fullpath)
    else ApiError err
  | OtherFailure cls msg => OtherError cls msg
  end.

(** What [_delete] returns or raises, by the provider's answer to
    [delete()]. *)
Definition delete_outcome (o : box_object) (box_fullpath : string) : result unit :=
  match obj_delete o with
  | Answer _ => Ok tt
  | Failure (ApiFailure _) => Raise (DeletionError ("error deleting file " ++ box_fullpath))
  | Failure (OtherFailure cls msg) => Raise (OtherError cls msg)
  end.


(** Whether [os.rename] of a regular file onto [dst] goes through in the
    filesystem [f]: the parent of [dst] is a directory, [dst] itself is not. *)
Definition rename_ok (f : gmap string node) (dst : string) : bool :=
  let parent := path_dirname dst in
  ((String.eqb parent "" || match f !! parent with Some Dir => true | _ => false end)
   && negb match f !! dst with Some Dir => true | _ => false end)%bool.

Definition is_mkdir (e : event) : bool :=
  match e with EvMkdir _ => true | _ => false end.

Definition is_remote_delete (e : event) : bool :=
  match e with EvRemoteDelete _ => true | _ => false end.

Definition is_content (e : event) : bool :=
  match e with EvContent _ => true | _ => false end.

Definition is_remove (e : event) : bool :=
  match e with EvRemove _ => true | _ => false end.

(** An event that creates or changes a local file (as opposed to a
    directory). *)
Definition is_file_mutation (e : event) : bool :=
  match e with
  | EvCreate _ | EvWrite _ _ | EvChmod _ _ | EvRename _ _ | EvRemove _ => true
  | _ => false
  end.

Section Runs.

Variable gzip_compress : string -> list Byte.byte -> list Byte.byte.
Variable content_digest : list Byte.byte -> pyval -> bool -> string.
Variable verification : option string.

(** The bytes [_savetemp] writes to the temp file [t]. *)
Definition stored_bytes (compress : bool) (t : string) (content : list Byte.byte)
    : list Byte.byte :=
  if compress then gzip_compress t content else content.

Section Attempt.

Variables (o : box_object) (box_fullpath local_fullfile : string)
          (key : pyval) (compress : bool).

(** [content()] answered [content], and [_savetemp] wrote [data] to the
    fresh temp file [t], leaving the candidate names [names]. *)
Inductive written (w : World) : list Byte.byte -> string -> list string
                                -> list Byte.byte -> Prop :=
  | written_intro content t names :
      obj_content o = Answer content ->
      fs w !! savetemp_dir w (path_dirname local_fullfile) = Some Dir ->
      first_free (fs w) (savetemp_dir w (path_dirname local_fullfile)) (tmpnames w)
        = Some (t, names) ->
      written w content t names (stored_bytes compress t content).

(** The verification step lets the bytes [data] pass. *)
Definition verified (data : list Byte.byte) : Prop :=
  match verification with
  | Some content_hash => content_digest data key compress = content_hash
  | None => True
  end.

Inductive body_run (w : World) : result unit -> World -> Prop :=
  | body_fetch_failed pe :
      obj_content o = Failure pe ->
      body_run w (Raise (fetch_error box_fullpath pe))
               (extend w (fs w) (tmpnames w) [EvContent (obj_name o)])
  | body_temp_failed content e names :
      obj_content o = Answer content ->
      fs w !! savetemp_dir w (path_dirname local_fullfile) <> Some Dir
      \/ first_free (fs w) (savetemp_dir w (path_dirname local_fullfile))
                    (tmpnames w) = None ->
      names `suffix_of` tmpnames w ->
      (forall message t, e <> BoxHashError message t) ->
      e <> HashRetryError ->
      body_run w (Raise e)
               (extend w (fs w) names
                  [EvContent (obj_name o);
                   EvLog "info" ("saving " ++ box_fullpath ++ " to "
                                 ++ local_fullfile ++ " ")])
  | body_hash_mismatch content t names data content_hash :
      written w content t names data ->
      verification = Some content_hash ->
      content_digest data key compress <> content_hash ->
      body_run w (Raise (BoxHashError ("hash mismatch detected for " ++ t) t))
               (extend w (<[t := File data 384]> (fs w)) names
                  (attempt_events (obj_name o) box_fullpath local_fullfile t data))
  | body_rename_failed content t names data e :
      written w content t names data ->
      verified data ->
      rename_ok (<[t := File data 420]> (fs w)) local_fullfile = false ->
      (forall message t, e <> BoxHashError message t) ->
      e <> HashRetryError ->
      body_run w (Raise e)
               (extend w (<[t := File data 420]> (fs w)) names
                  (attempt_events (obj_name o) box_fullpath local_fullfile t data
                   ++ [EvChmod t 420]))
  | body_committed content t names data :
      written w content t names data ->
      verified data ->
      rename_ok (<[t := File data 420]> (fs w)) local_fullfile = true ->
      body_run w (Ok tt)
               (extend w (<[local_fullfile := File data 420]> (fs w)) names
                  (attempt_events (obj_name o) box_fullpath local_fullfile t data
                   ++ [EvChmod t 420; EvRename t local_fullfile])).

(** The retry loop with [remaining] iterations left, the counter at
    [attempts]. *)
Inductive retry_run (n : nat) : nat -> nat -> World -> result unit -> World -> Prop :=
  | retry_exhausted attempts w :
      retry_run n O attempts w (Raise HashRetryError) w
  | retry_return remaining attempts w r w' :
      body_run w r w' ->
      (forall message t, r <> Raise (BoxHashError message t)) ->
      retry_run n (S remaining) attempts w r w'
  | retry_again remaining attempts w message t w1 r w' :
      body_run w (Raise (BoxHashError message t)) w1 ->
      retry_run n remaining (attempts + 1)
                (extend w1 (delete t (fs w1)) (tmpnames w1)
                        (mismatch_events n attempts message t))
                r w' ->
      retry_run n (S remaining) attempts w r w'.

End Attempt.

End Runs.

(** The world after the retry loop has answered a hash mismatch that names
    [t]: the warning is logged and [t] removed. *)
Definition after_mismatch (n attempts : nat) (message t : string) (w : World) : World :=
  extend w (delete t (fs w)) (tmpnames w) (mismatch_events n attempts message t).

(** [func], run in [w], wrote the fresh temp file [t] and nothing else, and
    failed with a hash mismatch that names [t], leaving the world [w1]. *)
Definition mismatch_attempt {A} (func : M A) (w : World) (message t : string)
    (w1 : World) : Prop :=
  func w = (Raise (BoxHashError message t), w1)
  /\ fs w !! t = None
  /\ exists data mode, fs w1 = <[t := File data mode]> (fs w).

(** The world in which [save] calls [_save], given the world [w0] in which
    [save] was called: [w0] itself when the directory of the destination
    exists, else what a successful [os.makedirs] made of it. *)
Definition dir_prepared (local_fullfile : string) (w0 w : World) : Prop :=
  (is_Some (fs w0 !! path_dirname local_fullfile) /\ w = w0)
  \/ (fs w0 !! path_dirname local_fullfile = None /\
      os_makedirs (path_dirname local_fullfile) w0 = (Ok tt, w)).


(** ** Shapes of event sequences *)


Section Shapes.

Variable gzip_compress : string -> list Byte.byte -> list Byte.byte.
Variables (o : box_object) (box_fullpath local_fullfile : string) (compress : bool).



End Shapes.

(** ** Sample inputs *)

Module Sample.

Import Stdlib.Init.Byte.

(** Stand-ins for the external transforms. *)
Definition gzip (name : string) (data : list byte) : list byte := x1f :: x8b :: data.
Definition encrypt (data : list byte) (key : pyval) (chunk_size : Z) : list byte :=
  List.map (fun _ => x00) data.
(** A hasher whose digest never equals the expected hash ["expected"]. *)
Definition digest (data : list byte) (key : pyval) (compress : bool) : string :=
  "mismatch".

Definition remote_file : box_object :=
  BoxObject "file" "a.txt" [] (Answer [x68; x69]) (Answer tt).

(** The same file on a provider whose [delete()] fails with an exception
    of the Box SDK. *)
Definition undeletable_file : box_object :=
  BoxObject "file" "a.txt" [] (Answer [x68; x69])
            (Failure (OtherFailure "BoxAPIException" "403")).

(** A file that is gone on the provider, reported the dropbox way. *)
Definition missing_file : box_object :=
  BoxObject "file" "a.txt" []
            (Failure (ApiFailure (mkApiError true true))) (Answer tt).

Definition empty_world : World :=
  mkWorld ∅ ["k3x9q0aa"; "p7w1m2bb"; "z5t8v4cc"] "/tmp" [].

(** An attempt of the kind [hash_retry] is written for: it writes the
    content to a temp file in [out] and reports a hash mismatch on it. *)
Definition mismatching_attempt : M unit :=
  bind (_savetemp gzip [x68; x69] "out" false)
       (fun t => raise (BoxHashError ("hash mismatch detected for " ++ t) t)).

(** A world in which the output directory exists. *)
Definition ready_world : World :=
  mkWorld {[ "out" := Dir ]} ["k3x9q0aa"; "p7w1m2bb"; "z5t8v4cc"] "/tmp" [].


End Sample.

(** ** Folder lookup *)

(** [get_box_object_based_on_name(client, box_folder_name, box_path_id)].
    [client] stands for [client.folder(folder_id=...).get()]: the provider's
    answer for a folder id.  The function ends without a [return] when no
    entry matches, which is [None]. *)
Definition get_box_object_based_on_name (client : string -> response box_object)
    (box_folder_name : string) (box_path_id : string) : result (option box_object) :=
  match client box_path_id with
  | Failure pe => Raise (exn_of_provider_error pe)
  | Answer root_dir => Ok (find_folder box_folder_name (get_items root_dir))
  end.

(** ** Measures of a remote tree *)

(** The folders of the tree under [o], [o] included: the entries the walk
    descends into. *)
Fixpoint count_folders (o : box_object) : nat :=
  match o with
  | BoxObject _ _ listing _ _ =>
    S (list_sum (List.map (fun d => if is_folder d then count_folders d else O) listing))
  end.

Definition is_get_items (s : walk_step) : bool :=
  match s with GetItems _ => true | Yield _ _ _ => false end.

(** [reaches root o root' o']: the folder [o'] is [o] itself or lies below
    it along entries of type folder, and [root'] is the path the walk builds
    for it from [root]. *)
Inductive reaches : string -> box_object -> string -> box_object -> Prop :=
  | reaches_here root o : reaches root o root o
  | reaches_down root o d root' o' :
      In d (get_items o) -> is_folder d = true ->
      reaches (path_join root (obj_name d)) d root' o' ->
      reaches root o root' o'.

(** ** Strings without a separator *)

Fixpoint no_sep (s : string) : bool :=
  match s with
  | EmptyString => true
  | String c s' => (negb (Ascii.eqb c sep) && no_sep s')%bool
  end.
(** * Properties *)

Local Open Scope list_scope.

(** ** Configuration *)

Lemma py_get_dict d key dflt : py_get (VDict d) key dflt = Ok (default dflt (d !! key)).
Proof. reflexivity. Qed.

(** The flag is [True] only for a configured literal [True]. *)
Lemma delete_on_success_true Lochness module_name :
  delete_on_success Lochness module_name = Ok true ->
  exists top box section,
    Lochness = VDict top /\ top !! "box" = Some (VDict box) /\
    box !! module_name = Some (VDict section) /\
    section !! "delete_on_success" = Some (VBool true).
Proof.
  unfold delete_on_success.
  destruct Lochness as [| | | | |top]; simpl; try discriminate.
  destruct (top !! "box") as [[| | | | |box]|] eqn:Hbox; simpl; try discriminate.
  destruct (box !! module_name) as [[| | | | |section]|] eqn:Hsec; simpl; try discriminate.
  destruct (section !! "delete_on_success") as [[|b| | | |]|] eqn:Hval;
    simpl; try discriminate.
  intros [= ->]. eauto 10.
Qed.

(** A section that is present but is not a mapping makes the lookup fail. *)
Lemma delete_on_success_malformed top module_name v :
  top !! "box" = Some v -> (forall d, v <> VDict d) ->
  exists msg, delete_on_success (VDict top) module_name = Raise (AttributeError msg).
Proof.
  intros Hbox Hv. unfold delete_on_success. simpl. rewrite Hbox. simpl.
  destruct v; simpl; eauto. by destruct (Hv d).
Qed.

(** ** Local destination *)

Lemma save_ext_cases key compress :
  save_ext key compress =
    match truthy key, compress with
    | true, true => ".lock.gz"
    | true, false => ".lock"
    | false, true => ".gz"
    | false, false => ""
    end.
Proof. unfold save_ext. by destruct (truthy key), compress. Qed.

(** ** Tree walk *)

Lemma flat_map_filter {A B} (p : A -> bool) (f : A -> list B) (l : list A) :
  flat_map (fun x => if p x then f x else []) l = flat_map f (List.filter p l).
Proof.
  induction l as [|x l IH]; simpl; [done|].
  destruct (p x); simpl; by rewrite IH.
Qed.

Lemma walk_from_folder_object_unfold root o :
  walk_from_folder_object root o =
    GetItems o
    :: Yield root (List.filter is_folder (get_items o))
             (List.filter (fun x => negb (is_folder x)) (get_items o))
    :: flat_map (fun d => walk_from_folder_object (path_join root (obj_name d)) d)
                (List.filter is_folder (get_items o)).
Proof.
  destruct o as [t n listing c d]. simpl.
  do 2 f_equal. apply (flat_map_filter is_folder
    (fun d => walk_from_folder_object (path_join root (obj_name d)) d)).
Qed.

Lemma yields_app s1 s2 : yields (s1 ++ s2) = yields s1 ++ yields s2.
Proof.
  induction s1 as [|[f|r ds fls] s1 IH]; simpl; [done|done|by rewrite IH].
Qed.

Lemma yields_flat_map {A} (f : A -> list walk_step) (l : list A) :
  yields (flat_map f l) = flat_map (fun x => yields (f x)) l.
Proof.
  induction l as [|x l IH]; simpl; [done|]. by rewrite yields_app, IH.
Qed.

(** C6: the walk lists a folder once, yields its triple, and then splices in
    the complete walk of each subfolder, in listing order, under the root
    join(root, subfolder.name). *)
Theorem walk_preorder :
  (forall root o,
     let subfolders := List.filter is_folder (get_items o) in
     let files := List.filter (fun x => negb (is_folder x)) (get_items o) in
     walk_from_folder_object root o =
       GetItems o :: Yield root subfolders files
       :: flat_map (fun d => walk_from_folder_object (path_join root (obj_name d)) d)
                   subfolders
     /\ yields (walk_from_folder_object root o) =
       (root, subfolders, files)
       :: flat_map (fun d => yields (walk_from_folder_object
                                       (path_join root (obj_name d)) d))
                   subfolders)
  /\ (let file name := BoxObject "file" name [] (Answer []) (Answer tt) in
      let folder name listing :=
        BoxObject "folder" name listing (Failure (OtherFailure "" ""))
                  (Failure (OtherFailure "" "")) in
      let sub := folder "sub" [file "b.txt"] in
      yields (walk_from_folder_object "root" (folder "root" [file "a.txt"; sub]))
      = [("root", [sub], [file "a.txt"]); ("root/sub", [], [file "b.txt"])]).
Proof.
  split; [|reflexivity].
  intros root o subfolders files. split.
  - apply walk_from_folder_object_unfold.
  - rewrite walk_from_folder_object_unfold. simpl. f_equal.
    apply yields_flat_map.
Qed.

(** ** Worlds and events *)

Lemma extend_extend w f1 n1 e1 f2 n2 e2 :
  extend (extend w f1 n1 e1) f2 n2 e2 = extend w f2 n2 (e1 ++ e2).
Proof. unfold extend. simpl. by rewrite <- app_assoc. Qed.

Lemma extend_id w : extend w (fs w) (tmpnames w) [] = w.
Proof. destruct w. unfold extend. simpl. by rewrite app_nil_r. Qed.

Lemma replay_app evs1 evs2 f : replay (evs1 ++ evs2) f = replay evs2 (replay evs1 f).
Proof. apply fold_left_app. Qed.



(** ** Running the primitives *)

Lemma first_free_Some f dir cands t names :
  first_free f dir cands = Some (t, names) ->
  f !! t = None /\ names `suffix_of` cands /\ t ∈ tmp_candidates dir cands.
Proof.
  induction cands as [|c cands IH]; simpl; [done|].
  destruct (f !! path_join dir ("." +:+ c)) eqn:Hc.
  - intros H. destruct (IH H) as (? & ? & ?). split_and!; [done| |].
    + by apply suffix_cons_r.
    + by apply list_elem_of_further.
  - intros [= <- <-]. split_and!; [done| |].
    + by apply suffix_cons_r.
    + apply list_elem_of_here.
Qed.

Lemma file_write_run fo data : forall w d m,
  fs w !! fo = Some (File d m) ->
  file_write fo data w =
    (Ok tt, extend w (<[fo := File (d ++ data) m]> (fs w)) (tmpnames w)
                   (List.map (EvWrite fo) data)).
Proof.
  induction data as [|b data IH]; intros w d m Hfo; simpl.
  - unfold ret. rewrite app_nil_r, insert_id by done. by rewrite extend_id.
  - unfold bind, emit. simpl. rewrite Hfo.
    erewrite IH by (simpl; apply lookup_insert_eq).
    unfold extend. simpl. rewrite insert_insert_eq.
    by rewrite <- !app_assoc.
Qed.

Lemma string_app_nil_r (s : string) : s +:+ "" = s.
Proof.
  induction s as [|c s IH]; [done|].
  change (String c s +:+ "") with (String c (s +:+ "")). by rewrite IH.
Qed.

Arguments attempt_events : simpl never.
Arguments mismatch_events : simpl never.
Arguments savetemp_events : simpl never.








(** ** Directory creation *)

(** What [os.mkdir] and [os.makedirs] may do to a world: append [mkdir]
    events, keep every existing entry, and add directories only. *)
Record mkdirs_only (w w' : World) (evs : list event) : Prop := {
  mkdirs_world : w' = extend w (fs w') (tmpnames w) evs;
  mkdirs_replay : fs w' = replay evs (fs w);
  mkdirs_events : forallb is_mkdir evs = true;
  mkdirs_keep : forall p n, fs w !! p = Some n -> fs w' !! p = Some n;
  mkdirs_new : forall p n, fs w' !! p = Some n -> fs w !! p = Some n \/ n = Dir
}.

Lemma mkdirs_only_refl w : mkdirs_only w w [].
Proof. split; try done; [by rewrite extend_id|]. intros; by left. Qed.

Lemma mkdirs_only_trans w1 w2 w3 evs1 evs2 :
  mkdirs_only w1 w2 evs1 -> mkdirs_only w2 w3 evs2 -> mkdirs_only w1 w3 (evs1 ++ evs2).
Proof.
  intros [Hw1 Hr1 He1 Hk1 Hn1] [Hw2 Hr2 He2 Hk2 Hn2]. split.
  - rewrite Hw2. rewrite Hw1 at 1 2. unfold extend. simpl. by rewrite app_assoc.
  - by rewrite replay_app, <- Hr1.
  - rewrite forallb_app. by rewrite He1, He2.
  - eauto.
  - intros p n H. destruct (Hn2 p n H) as [H'| ->]; eauto.
Qed.

Lemma os_mkdir_run p w r w' :
  os_mkdir p w = (r, w') ->
  (exists e, r = Raise e /\ w' = w)
  \/ (r = Ok tt /\ fs w' !! p = Some Dir /\ mkdirs_only w w' [EvMkdir p]).
Proof.
  unfold os_mkdir, bind, get_world, raise.
  destruct (String.eqb p "") eqn:Hp; [intros [= <- <-]; eauto|].
  destruct (fs w !! p) as [n|] eqn:Hlook; [intros [= <- <-]; eauto|].
  assert (Hemit : emit (EvMkdir p) w = (r, w') ->
    r = Ok tt /\ fs w' !! p = Some Dir /\ mkdirs_only w w' [EvMkdir p]).
  { unfold emit. intros [= <- <-]. simpl. split_and!; try done.
    - apply lookup_insert_eq.
    - split; simpl; try done.
      + intros q n Hq. rewrite lookup_insert_ne; [done|congruence].
      + intros q n. destruct (decide (p = q)) as [->|Hne].
        * rewrite lookup_insert_eq. intros [= <-]. by right.
        * rewrite lookup_insert_ne by done. by left. }
  destruct (_ || _)%bool; [by right; apply Hemit|].
  destruct (fs w !! path_dirname p) as [[|d m]|];
    [by right; apply Hemit|intros [= <- <-]; eauto..].
Qed.

Lemma makedirs_rec_run fuel : forall name w r w',
  makedirs_rec fuel name w = (r, w') ->
  exists evs, mkdirs_only w w' evs /\ (r = Ok tt -> is_Some (fs w' !! name)).
Proof.
  assert (Hleaf : forall name w r w',
    os_mkdir name w = (r, w') ->
    exists evs, mkdirs_only w w' evs /\ (r = Ok tt -> is_Some (fs w' !! name))).
  { intros name w r w' [Hm|Hm]%os_mkdir_run.
    - destruct Hm as (e & -> & ->). exists []. split; [apply mkdirs_only_refl|done].
    - destruct Hm as (-> & Hdir & Hm). exists [EvMkdir name].
      split; [done|by rewrite Hdir]. }
  induction fuel as [|fuel IH]; intros name w r w'; cbn [makedirs_rec];
    destruct (makedirs_split name) as [head tail]; cbn [fst snd];
    unfold bind at 1; unfold os_path_exists at 1; unfold bind at 1;
    destruct (negb (String.eqb head "") && negb (String.eqb tail "")
              && negb (bool_decide (is_Some (fs w !! head))))%bool;
    unfold ret; try apply Hleaf.
  unfold try_except.
  destruct (makedirs_rec fuel head w) as [r1 w1] eqn:Hrec.
  apply IH in Hrec as (evs1 & Hm1 & _).
  assert (Hrest : os_mkdir name w1 = (r, w') ->
    exists evs, mkdirs_only w w' evs /\ (r = Ok tt -> is_Some (fs w' !! name))).
  { intros [Hm|Hm]%os_mkdir_run.
    - destruct Hm as (e & -> & ->). by exists evs1.
    - destruct Hm as (-> & Hdir & Hm). exists (evs1 ++ [EvMkdir name]).
      split; [by eapply mkdirs_only_trans|by rewrite Hdir]. }
  destruct r1 as [[]|e]; [exact Hrest|].
  destruct e; try (intros [= <- <-]; by exists evs1).
  exact Hrest.
Qed.

Lemma os_makedirs_run name w r w' :
  os_makedirs name w = (r, w') ->
  exists evs, mkdirs_only w w' evs /\ (r = Ok tt -> is_Some (fs w' !! name)).
Proof. apply makedirs_rec_run. Qed.

Section PipelineProperties.

Context (gzip_compress : string -> list Byte.byte -> list Byte.byte)
        (crypt_encrypt : list Byte.byte -> pyval -> Z -> list Byte.byte)
        (content_digest : list Byte.byte -> pyval -> bool -> string)
        (verification : option string).

Lemma _savetemp_run content dirname compress w r w' :
  _savetemp gzip_compress content dirname compress w = (r, w') ->
  let dir := savetemp_dir w dirname in
  (exists t names,
      fs w !! dir = Some Dir /\
      first_free (fs w) dir (tmpnames w) = Some (t, names) /\
      r = Ok t /\
      w' = extend w (<[t := File (stored_bytes gzip_compress compress t content) 384]>
                       (fs w))
                  names
                  (savetemp_events t (stored_bytes gzip_compress compress t content)))
  \/ (exists e names,
      (fs w !! dir <> Some Dir \/ first_free (fs w) dir (tmpnames w) = None) /\
      r = Raise e /\ names `suffix_of` tmpnames w /\
      w' = extend w (fs w) names [] /\
      (forall message t, e <> BoxHashError message t) /\ e <> HashRetryError).
Proof.
  unfold _savetemp, savetemp_dir, bind, get_world, NamedTemporaryFile.
  set (dir := if String.eqb dirname "" then tempdir w else dirname).
  simpl.
  destruct (fs w !! dir) as [[|d m]|] eqn:Hdir.
  - destruct (first_free (fs w) dir (tmpnames w)) as [[t names]|] eqn:Hfree.
    + left. exists t, names. split_and!; try done.
      * revert H.
        erewrite file_write_run by (simpl; apply lookup_insert_eq).
        unfold file_flush, os_fsync, file_close, emit, ret, extend. simpl.
        intros [= <- <-]. done.
      * revert H.
        erewrite file_write_run by (simpl; apply lookup_insert_eq).
        unfold file_flush, os_fsync, file_close, emit, ret, extend,
          savetemp_events, stored_bytes. simpl.
        intros [= <- <-]. rewrite insert_insert_eq.
        f_equal. rewrite <- !app_assoc. simpl. done.
    + intros [= <- <-]. right. eexists _, []. split_and!; try done; eauto.
      * apply suffix_nil.
      * unfold extend. simpl. by rewrite app_nil_r.
  - intros [= <- <-]. right. eexists _, (tmpnames w).
    split_and!; try done; [left; congruence|]. by rewrite extend_id.
  - intros [= <- <-]. right. eexists _, (tmpnames w).
    split_and!; try done; [left; congruence|]. by rewrite extend_id.
Qed.


Lemma fetch_error_not_retry box_fullpath pe :
  (forall message t, fetch_error box_fullpath pe <> BoxHashError message t)
  /\ fetch_error box_fullpath pe <> HashRetryError.
Proof.
  destruct pe as [err|cls msg]; simpl; [|done].
  by destruct (is_path err && path_is_not_found err)%bool.
Qed.

(** Every run of the body of [_save] is one of the outcomes of [body_run]. *)
Lemma _save_body_run o box_fullpath local_fullfile key compress w r w' :
  _save_body gzip_compress crypt_encrypt content_digest verification
             o box_fullpath local_fullfile key compress w = (r, w') ->
  body_run gzip_compress content_digest verification
           o box_fullpath local_fullfile key compress w r w'.
Proof.
  unfold _save_body.
  unfold bind at 1. unfold try_except, box_content. unfold bind at 1.
  unfold emit at 1. simpl.
  destruct (obj_content o) as [content|pe] eqn:Hcontent; simpl.
  2:{ destruct pe as [err|cls msg]; simpl.
      - destruct (is_path err && path_is_not_found err)%bool eqn:Hnf; simpl;
          intros [= <- <-];
          pose proof (body_fetch_failed gzip_compress content_digest verification
                        o box_fullpath local_fullfile key compress w _ Hcontent) as Hrun;
          simpl in Hrun; rewrite Hnf in Hrun; exact Hrun.
      - intros [= <- <-].
        exact (body_fetch_failed gzip_compress content_digest verification
                 o box_fullpath local_fullfile key compress w _ Hcontent). }
  unfold bind at 1. unfold log at 1, emit at 1. simpl.
  unfold bind at 1.
  match goal with
  | |- context [(if truthy key then ?a else ?b) ?w1] =>
      replace ((if truthy key then a else b) w1) with (b w1)
        by (by destruct (truthy key));
      destruct (b w1) as [rt wt] eqn:Htemp
  end.
  apply _savetemp_run in Htemp. simpl in Htemp.
  change (savetemp_dir _ (path_dirname local_fullfile))
    with (savetemp_dir w (path_dirname local_fullfile)) in Htemp.
  destruct Htemp as [(t & names & Hdir & Hfree & -> & ->)
                    |(e & names & Hwhy & -> & Hsuf & -> & He1 & He2)].
  2:{ intros [= <- <-]. unfold extend. simpl.
      rewrite app_nil_r, <- app_assoc. simpl.
      by eapply body_temp_failed. }
  set (data := stored_bytes gzip_compress compress t content).
  assert (Hw : written gzip_compress o local_fullfile compress w content t names data)
    by (by constructor).
  destruct (first_free_Some _ _ _ _ _ Hfree) as (Hfresh & _ & _).
  unfold bind at 1. unfold log at 1, emit at 1. simpl.
  unfold bind at 1.
  assert (Hafter : forall (r0 : result unit) w0,
    (os_chmod t 420;; os_rename t local_fullfile)
      (mkWorld (<[t := File data 384]> (fs w)) names (tempdir w)
         (trace w ++ attempt_events (obj_name o) box_fullpath local_fullfile t data))
      = (r0, w0) ->
    verified content_digest verification key compress data ->
    body_run gzip_compress content_digest verification
             o box_fullpath local_fullfile key compress w r0 w0).
  { intros r0 w0. unfold bind, os_chmod, os_rename, bind, get_world. simpl.
    rewrite lookup_insert_eq. unfold emit at 1. simpl.
    rewrite !lookup_insert_eq. rewrite insert_insert_eq.
    intros Hrun Hver.
    destruct (rename_ok (<[t := File data 420]> (fs w)) local_fullfile) eqn:Hok.
    - pose proof Hok as Hok'. unfold rename_ok in Hok'.
      apply andb_true_iff in Hok' as [Hparent Hdst].
      rewrite Hparent in Hrun. simpl in Hrun.
      destruct (<[t := File data 420]> (fs w) !! local_fullfile) as [[|d' m']|] eqn:Hd;
        try discriminate Hdst.
      + unfold emit in Hrun. simpl in Hrun. rewrite lookup_insert_eq in Hrun.
        rewrite delete_insert_eq in Hrun.
        injection Hrun as <- <-.
        rewrite (delete_id (fs w) t) by done.
        pose proof (body_committed gzip_compress content_digest verification
                      o box_fullpath local_fullfile key compress w _ _ _ _ Hw Hver Hok)
          as Hc.
        unfold extend in Hc. rewrite <- !app_assoc. exact Hc.
      + unfold emit in Hrun. simpl in Hrun. rewrite lookup_insert_eq in Hrun.
        rewrite delete_insert_eq in Hrun.
        injection Hrun as <- <-.
        rewrite (delete_id (fs w) t) by done.
        pose proof (body_committed gzip_compress content_digest verification
                      o box_fullpath local_fullfile key compress w _ _ _ _ Hw Hver Hok)
          as Hc.
        unfold extend in Hc. rewrite <- !app_assoc. exact Hc.
    - pose proof Hok as Hok'. unfold rename_ok in Hok'.
      apply andb_false_iff in Hok' as [Hparent|Hdst].
      + rewrite Hparent in Hrun. simpl in Hrun. unfold raise in Hrun.
        injection Hrun as <- <-. rewrite <- app_assoc.
        by eapply (body_rename_failed gzip_compress content_digest verification
                     o box_fullpath local_fullfile key compress w _ _ _ _ _ Hw Hver Hok).
      + destruct (<[t := File data 420]> (fs w) !! local_fullfile) as [[|d' m']|] eqn:Hd;
          try discriminate Hdst.
        destruct (negb _) in Hrun; unfold raise in Hrun; injection Hrun as <- <-;
          rewrite <- app_assoc;
          by eapply (body_rename_failed gzip_compress content_digest verification
                       o box_fullpath local_fullfile key compress w _ _ _ _ _ Hw Hver Hok). }
  simpl.
  replace (mkWorld (<[t:=File data 384]> (fs w)) names (tempdir w) _)
    with (mkWorld (<[t := File data 384]> (fs w)) names (tempdir w)
            (trace w ++ attempt_events (obj_name o) box_fullpath local_fullfile t data)).
  2:{ f_equal. unfold attempt_events. rewrite <- !app_assoc. simpl.
      by rewrite <- !app_assoc. }
  destruct verification as [content_hash|] eqn:Hv.
  - unfold verify, bind at 1, get_world. simpl. rewrite lookup_insert_eq.
    destruct (String.eqb (content_digest data key compress) content_hash) eqn:Hd; simpl.
    + apply String.eqb_eq in Hd. intros Hrun. apply Hafter; [exact Hrun|].
      unfold verified. exact Hd.
    + apply String.eqb_neq in Hd. intros [= <- <-].
      by eapply (body_hash_mismatch gzip_compress content_digest (Some content_hash)
                   o box_fullpath local_fullfile key compress w _ _ _ _ _ Hw).
  - unfold bind at 1, ret at 1. intros Hrun. apply Hafter; [exact Hrun|].
    by unfold verified.
Qed.


Lemma body_run_mismatch_inv o box_fullpath local_fullfile key compress w message t w1 :
  body_run gzip_compress content_digest verification
           o box_fullpath local_fullfile key compress w
           (Raise (BoxHashError message t)) w1 ->
  exists content names data content_hash,
    written gzip_compress o local_fullfile compress w content t names data /\
    verification = Some content_hash /\
    content_digest data key compress <> content_hash /\
    message = "hash mismatch detected for " +:+ t /\
    w1 = extend w (<[t := File data 384]> (fs w)) names
           (attempt_events (obj_name o) box_fullpath local_fullfile t data).
Proof.
  inversion 1; subst;
    try match goal with
        | H : forall m f, BoxHashError _ _ <> BoxHashError m f |- _ =>
            exfalso; eapply H; reflexivity
        | H : fetch_error _ ?pe = BoxHashError _ _ |- _ =>
            exfalso; eapply (proj1 (fetch_error_not_retry _ _)); exact H
        end.
  eauto 10.
Qed.

(** Every run of the retry loop around the body of [_save] is a
    [retry_run]. *)
Lemma hash_retry_loop_run o box_fullpath local_fullfile key compress n remaining :
  forall attempts w r w',
  hash_retry_loop n
    (_save_body gzip_compress crypt_encrypt content_digest verification
                o box_fullpath local_fullfile key compress)
    remaining attempts w = (r, w') ->
  retry_run gzip_compress content_digest verification
            o box_fullpath local_fullfile key compress n remaining attempts w r w'.
Proof.
  induction remaining as [|k IH]; intros attempts w r w'; simpl.
  - intros [= <- <-]. constructor.
  - unfold try_except.
    destruct (_save_body _ _ _ _ _ _ _ _ _ w) as [rb w1] eqn:Hbody.
    apply _save_body_run in Hbody.
    destruct rb as [[]|e].
    + intros [= <- <-]. by apply retry_return.
    + destruct e; try (intros [= <- <-]; by apply retry_return).
      pose proof Hbody as Hinv. apply body_run_mismatch_inv in Hinv
        as (content & names & data & h & Hw & Hv & Hd & -> & ->).
      unfold bind at 1. unfold log at 1, emit at 1. simpl.
      unfold bind at 1. unfold os_remove at 1, bind at 1, get_world. simpl.
      rewrite lookup_insert_eq. unfold emit at 1. simpl.
      intros Hloop. apply IH in Hloop.
      eapply retry_again; [exact Hbody|].
      unfold extend, mismatch_events in *. simpl in *.
      rewrite <- !app_assoc in Hloop. simpl in Hloop. rewrite <- !app_assoc.
      exact Hloop.
Qed.

Lemma _save_run o box_fullpath local_fullfile key compress w r w' :
  _save gzip_compress crypt_encrypt content_digest verification
        o box_fullpath local_fullfile key compress w = (r, w') ->
  retry_run gzip_compress content_digest verification
            o box_fullpath local_fullfile key compress 3 3 1 w r w'.
Proof. apply hash_retry_loop_run. Qed.

(** *** The shape of the events of a run *)

Lemma written_fresh o local_fullfile compress w content t names data :
  written gzip_compress o local_fullfile compress w content t names data ->
  fs w !! t = None /\ names `suffix_of` tmpnames w /\
  t ∈ tmp_candidates (savetemp_dir w (path_dirname local_fullfile)) (tmpnames w) /\
  obj_content o = Answer content /\
  data = stored_bytes gzip_compress compress t content.
Proof.
  inversion 1 as [c t' n Hc Hdir Hfree]; subst.
  destruct (first_free_Some _ _ _ _ _ Hfree) as (? & ? & ?). done.
Qed.


Section Run.

Variables (o : box_object) (box_fullpath local_fullfile : string)
          (key : pyval) (compress : bool).





End Run.

(** *** What a run of [_save] leaves in the trace *)

Lemma no_remote_delete_attempt_events name box_fullpath local_fullfile t data :
  forallb (fun e => negb (is_remote_delete e))
          (attempt_events name box_fullpath local_fullfile t data) = true.
Proof.
  unfold attempt_events, savetemp_events. simpl.
  rewrite !forallb_app. simpl. rewrite !andb_true_r.
  apply forallb_forall. by intros e [b [<- _]]%in_map_iff.
Qed.

(** A run of [_save] never calls the provider's [delete()]; it keeps
    [tempdir]; and when it returns normally, its last event is the rename
    onto the destination, which then holds a file of mode 0644. *)
Lemma retry_run_trace o box_fullpath local_fullfile key compress
      n remaining attempts w r w' :
  retry_run gzip_compress content_digest verification
            o box_fullpath local_fullfile key compress n remaining attempts w r w' ->
  exists evs,
    trace w' = trace w ++ evs /\ tempdir w' = tempdir w /\
    forallb (fun e => negb (is_remote_delete e)) evs = true /\
    (r = Ok tt ->
     exists pre t content,
       evs = pre ++ [EvRename t local_fullfile] /\
       obj_content o = Answer content /\
       fs w' !! local_fullfile
         = Some (File (stored_bytes gzip_compress compress t content) 420)).
Proof.
  induction 1 as [attempts w|remaining attempts w r w' Hbody Hr
                 |remaining attempts w message t w1 r w' Hbody Hloop IH].
  - exists []. by rewrite app_nil_r.
  - destruct Hbody as [pe Hc|content e names Hc Hwhy Hsuf He1 He2
                      |content t names data h Hw Hv Hd
                      |content t names data e Hw Hver Hok He1 He2
                      |content t names data Hw Hver Hok];
      (eexists; split; [reflexivity|]); unfold extend; cbn [fs tempdir];
      (split; [done|]).
    + done.
    + done.
    + split; [|done]. apply no_remote_delete_attempt_events.
    + split; [|done]. rewrite forallb_app, no_remote_delete_attempt_events. done.
    + split.
      * rewrite forallb_app, no_remote_delete_attempt_events. done.
      * intros _.
        destruct (written_fresh _ _ _ _ _ _ _ _ Hw) as (_ & _ & _ & Hc & ->).
        exists (attempt_events (obj_name o) box_fullpath local_fullfile t
                  (stored_bytes gzip_compress compress t content)
                ++ [EvChmod t 420]), t, content.
        split_and!; [by rewrite <- app_assoc|done|apply lookup_insert_eq].
  - apply body_run_mismatch_inv in Hbody
      as (content & names & data & h & Hw & Hv & Hd & -> & ->).
    destruct IH as (evs & Htr & Htd & Hnd & Hok).
    unfold extend in *. cbn [fs tmpnames tempdir trace] in *.
    exists (attempt_events (obj_name o) box_fullpath local_fullfile t data
            ++ mismatch_events n attempts ("hash mismatch detected for " +:+ t) t
            ++ evs).
    split_and!.
    + rewrite Htr. by rewrite <- !app_assoc.
    + done.
    + rewrite !forallb_app, no_remote_delete_attempt_events, Hnd. done.
    + intros Hr. destruct (Hok Hr) as (pre & t' & content' & -> & Hc & Hfs).
      eexists _, t', content'. split_and!; [|done|done].
      by rewrite !app_assoc.
Qed.

Lemma _save_ok_exists o box_fullpath local_fullfile key compress w w' :
  _save gzip_compress crypt_encrypt content_digest verification
        o box_fullpath local_fullfile key compress w = (Ok tt, w') ->
  exists t content,
    obj_content o = Answer content /\
    fs w' !! local_fullfile
      = Some (File (stored_bytes gzip_compress compress t content) 420).
Proof.
  intros Hrun. apply _save_run, retry_run_trace in Hrun.
  destruct Hrun as (evs & _ & _ & _ & Hok).
  destruct (Hok eq_refl) as (pre & t & content & _ & Hc & Hfs). eauto.
Qed.

(** *** Atomic commit *)





(** *** [_delete] and [save], step by step *)

Lemma _delete_run o box_fullpath w :
  _delete o box_fullpath w =
    (delete_outcome o box_fullpath,
     extend w (fs w) (tmpnames w) [EvRemoteDelete (obj_name o)]).
Proof.
  unfold _delete, try_except, box_delete, bind, emit, delete_outcome, extend.
  simpl. destruct (obj_delete o) as [[]|[err|cls msg]]; reflexivity.
Qed.

Lemma save_unfold o box_path_tuple out_base key compress del dry w :
  save gzip_compress crypt_encrypt content_digest verification
       o box_path_tuple out_base key compress del dry w =
  let box_fullpath := save_box_fullpath box_path_tuple in
  let local_fullfile := save_local_fullfile box_path_tuple out_base key compress in
  if bool_decide (is_Some (fs w !! local_fullfile)) then (Ok tt, w)
  else
    let '(r1, w1) :=
      if bool_decide (is_Some (fs w !! path_dirname local_fullfile)) then (Ok tt, w)
      else os_makedirs (path_dirname local_fullfile) w in
    match r1 with
    | Raise e => (Raise e, w1)
    | Ok _ =>
      if dry then (Ok tt, w1)
      else
        let '(r2, w2) :=
          _save gzip_compress crypt_encrypt content_digest verification
                o box_fullpath local_fullfile key compress w1 in
        match r2 with
        | Raise HashRetryError =>
          (Raise (DownloadError
                    ("too many failed attempts downloading " +:+ box_fullpath)), w2)
        | Raise e => (Raise e, w2)
        | Ok _ =>
          if del then
            (delete_outcome o box_fullpath,
             extend w2 (fs w2) (tmpnames w2)
                    [EvLog "debug" ("deleting file on box " +:+ box_fullpath);
                     EvRemoteDelete (obj_name o)])
          else (Ok tt, w2)
        end
    end.
Proof.
  unfold save. cbv zeta.
  set (box_fullpath := save_box_fullpath box_path_tuple).
  set (local_fullfile := save_local_fullfile box_path_tuple out_base key compress).
  unfold bind at 1. unfold os_path_exists at 1.
  destruct (bool_decide (is_Some (fs w !! local_fullfile))); [reflexivity|].
  unfold bind at 1. unfold os_path_exists at 1.
  unfold bind at 1.
  destruct (bool_decide (is_Some (fs w !! path_dirname local_fullfile))); simpl.
  2:{ destruct (os_makedirs (path_dirname local_fullfile) w) as [[[]|e] w1];
        [|reflexivity].
      destruct dry; simpl; [reflexivity|].
      unfold try_except, bind.
      destruct (_save _ _ _ _ _ _ _ _ _ w1) as [[[]|e] w2]; [|by destruct e].
      destruct del; [|reflexivity].
      unfold log, emit. simpl. rewrite _delete_run. unfold extend. simpl.
      rewrite <- app_assoc. simpl.
      unfold delete_outcome.
      by destruct (obj_delete o) as [[]|[err|cls msg]]. }
  unfold ret at 1.
  destruct dry; simpl; [reflexivity|].
  unfold try_except, bind.
  destruct (_save _ _ _ _ _ _ _ _ _ w) as [[[]|e] w2]; [|by destruct e].
  destruct del; [|reflexivity].
  unfold log, emit. simpl. rewrite _delete_run. unfold extend. simpl.
  rewrite <- app_assoc. simpl.
  unfold delete_outcome.
  by destruct (obj_delete o) as [[]|[err|cls msg]].
Qed.



(** *** Idempotence and dry runs *)

(** C1: when the local destination exists, [save] returns at once and
    leaves the world as it is (nothing fetched, written or deleted, nothing
    added to the trace); and a call that follows a successful call with the
    same arguments is such a no-op. *)
Theorem save_idempotent o box_path_tuple out_base key compress del dry :
  (forall w,
     is_Some (fs w !! save_local_fullfile box_path_tuple out_base key compress) ->
     save gzip_compress crypt_encrypt content_digest verification
          o box_path_tuple out_base key compress del dry w = (Ok tt, w))
  /\ (forall w w',
     save gzip_compress crypt_encrypt content_digest verification
          o box_path_tuple out_base key compress del dry w = (Ok tt, w') ->
     save gzip_compress crypt_encrypt content_digest verification
          o box_path_tuple out_base key compress del dry w' = (Ok tt, w')).
Proof.
  assert (Hskip : forall w,
    is_Some (fs w !! save_local_fullfile box_path_tuple out_base key compress) ->
    save gzip_compress crypt_encrypt content_digest verification
         o box_path_tuple out_base key compress del dry w = (Ok tt, w)).
  { intros w Hex. rewrite save_unfold. cbv zeta. by rewrite bool_decide_eq_true_2. }
  split; [exact Hskip|].
  intros w w'. rewrite save_unfold. cbv zeta.
  set (box_fullpath := save_box_fullpath box_path_tuple).
  set (local_fullfile := save_local_fullfile box_path_tuple out_base key compress).
  destruct (bool_decide (is_Some (fs w !! local_fullfile))) eqn:Hdst.
  { intros [= <-]. apply Hskip. by apply bool_decide_eq_true in Hdst. }
  assert (Hdir : exists r1 w1,
    (if bool_decide (is_Some (fs w !! path_dirname local_fullfile)) then (Ok tt, w)
     else os_makedirs (path_dirname local_fullfile) w) = (r1, w1)
    /\ (r1 = Ok tt -> is_Some (fs w1 !! path_dirname local_fullfile))).
  { destruct (bool_decide (is_Some (fs w !! path_dirname local_fullfile))) eqn:Hd.
    - exists (Ok tt), w. split; [done|]. intros _. by apply bool_decide_eq_true in Hd.
    - destruct (os_makedirs (path_dirname local_fullfile) w) as [r1 w1] eqn:Hmk.
      apply os_makedirs_run in Hmk as (evs & _ & Hok). by exists r1, w1. }
  destruct Hdir as (r1 & w1 & -> & Hdir).
  destruct r1 as [[]|e]; [|discriminate].
  destruct dry.
  - intros [= <-]. rewrite save_unfold. cbv zeta.
    fold box_fullpath local_fullfile.
    destruct (bool_decide (is_Some (fs w1 !! local_fullfile))); [done|].
    rewrite bool_decide_eq_true_2 by auto. done.
  - destruct (_save _ _ _ _ _ _ _ _ _ w1) as [r2 w2] eqn:Hsave.
    destruct r2 as [[]|e]; [|destruct e; discriminate].
    apply _save_ok_exists in Hsave as (t & content & _ & Hfs).
    destruct del.
    + intros [= _ <-]. apply Hskip. fold local_fullfile.
      unfold extend. cbn [fs]. by rewrite Hfs.
    + intros [= <-]. apply Hskip. fold local_fullfile. by rewrite Hfs.
Qed.


(** *** Error translation *)

Lemma _save_fetch_failed o box_fullpath local_fullfile key compress w pe :
  obj_content o = Failure pe ->
  _save gzip_compress crypt_encrypt content_digest verification
        o box_fullpath local_fullfile key compress w
  = (Raise (fetch_error box_fullpath pe),
     extend w (fs w) (tmpnames w) [EvContent (obj_name o)]).
Proof.
  intros Hc.
  destruct (_save _ _ _ _ _ _ _ _ _ w) as [r w'] eqn:Hrun.
  pose proof Hrun as Hretry. apply _save_run in Hretry.
  inversion Hretry as [|k a w0 r0 w0' Hbody Hr|k a w0 m t w1 r0 w0' Hbody Hloop]; subst.
  - inversion Hbody as [pe' Hc'|content e names Hc'|c t n d h Hw|c t n d e Hw|c t n d Hw];
      subst; try congruence;
      apply written_fresh in Hw as (_ & _ & _ & Hc' & _); congruence.
  - apply body_run_mismatch_inv in Hbody as (c & n & d & h & Hw & _).
    apply written_fresh in Hw as (_ & _ & _ & Hc' & _). congruence.
Qed.

Lemma save_prepared o box_path_tuple out_base key compress del w0 w :
  let local_fullfile := save_local_fullfile box_path_tuple out_base key compress in
  fs w0 !! local_fullfile = None ->
  dir_prepared local_fullfile w0 w ->
  save gzip_compress crypt_encrypt content_digest verification
       o box_path_tuple out_base key compress del false w0
  = let box_fullpath := save_box_fullpath box_path_tuple in
    let '(r2, w2) :=
      _save gzip_compress crypt_encrypt content_digest verification
            o box_fullpath local_fullfile key compress w in
    match r2 with
    | Raise HashRetryError =>
      (Raise (DownloadError
                ("too many failed attempts downloading " +:+ box_fullpath)), w2)
    | Raise e => (Raise e, w2)
    | Ok _ =>
      if del then
        (delete_outcome o box_fullpath,
         extend w2 (fs w2) (tmpnames w2)
                [EvLog "debug" ("deleting file on box " +:+ box_fullpath);
                 EvRemoteDelete (obj_name o)])
      else (Ok tt, w2)
    end.
Proof.
  intros local_fullfile Hdst Hprep. rewrite save_unfold. cbv zeta.
  fold local_fullfile.
  rewrite bool_decide_eq_false_2 by (rewrite Hdst; by intros [? ?]).
  destruct Hprep as [[Hdir ->]|[Hdir Hmk]].
  - rewrite bool_decide_eq_true_2 by done. done.
  - rewrite bool_decide_eq_false_2 by (rewrite Hdir; by intros [? ?]).
    rewrite Hmk. done.
Qed.

(** *** Deletion gating *)

Lemma configured_delete_on_success Lochness module_name value :
  configured Lochness module_name value ->
  delete_on_success Lochness module_name
  = Ok match value with Some (VBool b) => b | _ => false end.
Proof.
  intros [top Ht Hb|top box Ht Hb Hm|top box section Ht Hb Hm Hf
         |top box section v Ht Hb Hm Hf]; subst; unfold delete_on_success; simpl.
  - by rewrite Hb.
  - rewrite Hb. simpl. by rewrite Hm.
  - rewrite Hb. simpl. rewrite Hm. simpl. by rewrite Hf.
  - rewrite Hb. simpl. rewrite Hm. simpl. rewrite Hf. simpl. by destruct v.
Qed.



(** *** Local destination *)

(** C5, as the code has it: the local path is
    join(out_base, box_path_name + ext), where ext is ['.lock'] exactly
    when the key is true in the sense of Python (not [None], not empty, not
    zero), followed by ['.gz'] exactly when [compress] is set; after a successful
    [save] that path exists. *)
Theorem local_destination_rule o box_path_tuple out_base key compress del :
  let name := snd box_path_tuple in
  let ext := save_ext key compress in
  save_local_fullfile box_path_tuple out_base key compress
    = path_join out_base (name +:+ ext)
  /\ ext = (if truthy key then ".lock" else "") +:+ (if compress then ".gz" else "")
  /\ (truthy key = true -> compress = true ->
      save_local_fullfile box_path_tuple out_base key compress
        = path_join out_base (name +:+ ".lock.gz"))
  /\ (truthy key = false -> compress = false ->
      save_local_fullfile box_path_tuple out_base key compress
        = path_join out_base name)
  /\ (forall w w',
      save gzip_compress crypt_encrypt content_digest verification
           o box_path_tuple out_base key compress del false w = (Ok tt, w') ->
      is_Some (fs w' !! path_join out_base (name +:+ ext))).
Proof.
  intros name ext. unfold ext, name.
  assert (Hpath : save_local_fullfile box_path_tuple out_base key compress
                  = path_join out_base (snd box_path_tuple +:+ save_ext key compress))
    by (by destruct box_path_tuple).
  split_and!.
  - exact Hpath.
  - unfold save_ext. destruct (truthy key), compress; try done.
  - intros Hk ->. rewrite Hpath. unfold save_ext. by rewrite Hk.
  - intros Hk ->. rewrite Hpath. unfold save_ext. rewrite Hk.
    by rewrite string_app_nil_r.
  - intros w w'. rewrite save_unfold. cbv zeta. rewrite <- Hpath.
    set (local_fullfile := save_local_fullfile box_path_tuple out_base key compress).
    destruct (bool_decide (is_Some (fs w !! local_fullfile))) eqn:Hdst.
    + intros [= <-]. by apply bool_decide_eq_true in Hdst.
    + destruct (if bool_decide _ then _ else _) as [[[]|e] w1]; [|discriminate].
      destruct (_save _ _ _ _ _ _ _ _ _ w1) as [r2 w2] eqn:Hsave.
      destruct r2 as [[]|e]; [|destruct e; discriminate].
      apply _save_ok_exists in Hsave as (t & content & _ & Hfs).
      destruct del.
      * intros [= _ <-]. unfold extend. cbn [fs]. by rewrite Hfs.
      * intros [= <-]. by rewrite Hfs.
Qed.

End PipelineProperties.

(** ** What is stored *)

Section KeyIndependence.

Context (gzip_compress : string -> list Byte.byte -> list Byte.byte)
        (content_digest : list Byte.byte -> pyval -> bool -> string).

Lemma hash_retry_loop_ext {A} n (f g : M A) :
  (forall w, f w = g w) ->
  forall remaining attempts w,
    hash_retry_loop n f remaining attempts w = hash_retry_loop n g remaining attempts w.
Proof.
  intros Hfg. induction remaining as [|k IH]; intros attempts w; [done|].
  cbn [hash_retry_loop]. unfold try_except. rewrite Hfg.
  destruct (g w) as [[a|e] w1]; [done|].
  destruct e; try done.
  unfold bind. destruct (log _ _ w1) as [[[]|e] w2]; [|done].
  destruct (os_remove filename w2) as [[[]|e] w3]; [|done].
  apply IH.
Qed.

(** The encryption transform does not enter the result of an attempt. *)
Lemma _save_body_encrypt_irrelevant enc1 enc2 verification o box_fullpath local_fullfile
      key compress w :
  _save_body gzip_compress enc1 content_digest verification
             o box_fullpath local_fullfile key compress w
  = _save_body gzip_compress enc2 content_digest verification
               o box_fullpath local_fullfile key compress w.
Proof. unfold _save_body. by destruct (truthy key). Qed.

(** Without the verification step, neither does the key. *)
Lemma _save_body_key_irrelevant enc o box_fullpath local_fullfile key1 key2 compress w :
  _save_body gzip_compress enc content_digest None
             o box_fullpath local_fullfile key1 compress w
  = _save_body gzip_compress enc content_digest None
               o box_fullpath local_fullfile key2 compress w.
Proof. unfold _save_body. by destruct (truthy key1), (truthy key2). Qed.

(** C10: what [_save] does and stores does not depend on the key, nor on
    the encryption transform: the keyed and the keyless run of the source
    as it is give the same result and the same world, whatever
    [crypt.encrypt] computes; and whenever [_save] returns, the destination
    holds the fetched content as [_savetemp] writes it (compressed or raw),
    never the encrypted stream. *)
Theorem stored_bytes_key_independent enc1 enc2 o box_fullpath local_fullfile
        key1 key2 compress w :
  _save gzip_compress enc1 content_digest None
        o box_fullpath local_fullfile key1 compress w
  = _save gzip_compress enc2 content_digest None
          o box_fullpath local_fullfile key2 compress w
  /\ (forall verification,
      _save gzip_compress enc1 content_digest verification
            o box_fullpath local_fullfile key1 compress w
      = _save gzip_compress enc2 content_digest verification
              o box_fullpath local_fullfile key1 compress w)
  /\ (forall verification w',
      _save gzip_compress enc1 content_digest verification
            o box_fullpath local_fullfile key1 compress w = (Ok tt, w') ->
      exists t content,
        obj_content o = Answer content /\
        fs w' !! local_fullfile
          = Some (File (if compress then gzip_compress t content else content) 420)).
Proof.
  split_and!.
  - unfold _save, hash_retry.
    etrans; [apply hash_retry_loop_ext; intros w0;
             apply (_save_body_encrypt_irrelevant enc1 enc2)|].
    apply hash_retry_loop_ext. intros w0. apply _save_body_key_irrelevant.
  - intros verification. unfold _save, hash_retry.
    apply hash_retry_loop_ext. intros w0. apply _save_body_encrypt_irrelevant.
  - intros verification w' Hrun. by apply _save_ok_exists in Hrun.
Qed.

End KeyIndependence.

(** ** Remote deletion *)

(** [_delete] never touches the local filesystem. *)
Lemma _delete_keeps_local o box_fullpath w :
  fs (snd (_delete o box_fullpath w)) = fs w.
Proof. by rewrite _delete_run. Qed.

(** An [ApiError] from [delete()] becomes a [DeletionError] that names the
    remote path. *)
Lemma _delete_api_error o box_fullpath w err :
  obj_delete o = Failure (ApiFailure err) ->
  fst (_delete o box_fullpath w)
  = Raise (DeletionError ("error deleting file " +:+ box_fullpath)).
Proof. intros H. rewrite _delete_run. unfold delete_outcome. by rewrite H. Qed.

(** C9: at a file object whose [delete()] fails with an exception of the Box
    SDK, [_delete] lets that exception through as it is: no [DeletionError]
    is raised, although the local file stays in place. *)
Theorem _delete_leaks_provider_exception :
  let w := mkWorld {[ "out" := Dir; "out/a.txt" := File [] 420 ]} [] "/tmp" [] in
  let run := _delete Sample.undeletable_file "root/a.txt" w in
  fst run = Raise (OtherError "BoxAPIException" "403")
  /\ (forall msg, fst run <> Raise (DeletionError msg))
  /\ fs (snd run) = fs w.
Proof.
  intros w run. unfold run. rewrite _delete_run. split_and!; try done.
Qed.

(** ** The theorems at sample inputs *)

Import Sample.

Lemma save_idempotent_witness :
  let w1 := snd (save gzip encrypt digest None remote_file ("root", "a.txt") "out"
                      VNone false true false empty_world) in
  save gzip encrypt digest None remote_file ("root", "a.txt") "out"
       VNone false true false w1 = (Ok tt, w1)
  /\ save gzip encrypt digest None remote_file ("root", "a.txt") "out"
          (VStr "") false true false w1 = (Ok tt, w1).
Proof.
  split.
  - apply (proj2 (save_idempotent gzip encrypt digest None remote_file
                    ("root", "a.txt") "out" VNone false true false) empty_world).
    vm_compute. reflexivity.
  - apply (proj1 (save_idempotent gzip encrypt digest None remote_file
                    ("root", "a.txt") "out" (VStr "") false true false)).
    vm_compute. eexists. reflexivity.
Defined.




(** An empty key is not [None], yet it adds no ['.lock']. *)
Lemma lock_suffix_needs_truthy_key :
  VStr "" <> VNone
  /\ save_local_fullfile ("root", "name") "out" (VStr "") true = "out/name.gz"
  /\ save_local_fullfile ("root", "name") "out" (VStr "") true
     <> path_join "out" ("name" +:+ ".lock.gz").
Proof. split_and!; [discriminate|reflexivity|vm_compute; discriminate]. Qed.

Lemma local_destination_rule_witness :
  save_local_fullfile ("root", "name") "out" (VStr "secret") true = "out/name.lock.gz"
  /\ save_local_fullfile ("root", "name") "out" VNone false = "out/name"
  /\ is_Some (fs (snd (save gzip encrypt digest None remote_file ("root", "a.txt") "out"
                            (VStr "secret") true false false empty_world))
              !! "out/a.txt.lock.gz").
Proof.
  split_and!.
  - apply (proj1 (proj2 (proj2 (local_destination_rule gzip encrypt digest None
                                  remote_file ("root", "name") "out" (VStr "secret")
                                  true false))));
      reflexivity.
  - apply (proj1 (proj2 (proj2 (proj2 (local_destination_rule gzip encrypt digest None
                                         remote_file ("root", "name") "out" VNone
                                         false false)))));
      reflexivity.
  - apply (proj2 (proj2 (proj2 (proj2 (local_destination_rule gzip encrypt digest None
                                         remote_file ("root", "a.txt") "out"
                                         (VStr "secret") true false))))
             empty_world).
    vm_compute. reflexivity.
Defined.



Lemma stored_bytes_key_independent_witness :
  _save gzip encrypt digest None remote_file "root/a.txt" "out/a.txt"
        (VStr "secret") false ready_world
  = _save gzip (fun data _ _ => data) digest None remote_file "root/a.txt" "out/a.txt"
          VNone false ready_world
  /\ exists t content,
       obj_content remote_file = Answer content
       /\ fs (snd (_save gzip encrypt digest None remote_file "root/a.txt" "out/a.txt"
                         (VStr "secret") false ready_world)) !! "out/a.txt"
          = Some (File (if false then gzip t content else content) 420).
Proof.
  destruct (stored_bytes_key_independent gzip digest encrypt (fun data _ _ => data)
              remote_file "root/a.txt" "out/a.txt" (VStr "secret") VNone false
              ready_world) as (Hsame & _ & Hstored).
  split; [exact Hsame|].
  apply (Hstored None). vm_compute. reflexivity.
Defined.

(** * Further properties *)

(** ** Configuration lookups *)

(** X1: [delete_on_success] answers [True] exactly when every section on the
    way is a mapping and the configured value is the boolean [True]. *)
Theorem delete_on_success_true_iff Lochness module_name :
  delete_on_success Lochness module_name = Ok true
  <-> configured Lochness module_name (Some (VBool true)).
Proof.
  split.
  - intros (top & box & section & -> & Hb & Hm & Hf)%delete_on_success_true.
    by eapply configured_flag.
  - intros H. by rewrite (configured_delete_on_success _ _ _ H).
Qed.

(** X2: a [box] section or a module section that is present but is not a
    mapping (for instance left empty in the configuration file, which reads
    as [None]) makes both lookups raise [AttributeError] instead of falling
    back to the default. *)
Theorem lookups_need_mappings top module_name v :
  (forall d, v <> VDict d) ->
  (top !! "box" = Some v \/
   exists box, top !! "box" = Some (VDict box) /\ box !! module_name = Some v) ->
  (exists msg, delete_on_success (VDict top) module_name = Raise (AttributeError msg))
  /\ (exists msg, base (VDict top) module_name = Raise (AttributeError msg)).
Proof.
  intros Hv [Hbox|(box & Hbox & Hmod)];
    unfold delete_on_success, base; simpl; rewrite Hbox; simpl.
  - destruct v; simpl; eauto. by destruct (Hv d).
  - rewrite Hmod. simpl. destruct v; simpl; eauto. by destruct (Hv d).
Qed.

(** [base] answers the configured value as it is, of whatever type,
    and the empty string when a key on the way is absent. *)
Theorem base_configured top module_name :
  match top !! "box" with
  | None => base (VDict top) module_name = Ok (VStr "")
  | Some (VDict box) =>
    match box !! module_name with
    | None => base (VDict top) module_name = Ok (VStr "")
    | Some (VDict section) =>
      base (VDict top) module_name = Ok (default (VStr "") (section !! "base"))
    | Some _ => True
    end
  | Some _ => True
  end.
Proof.
  unfold base. simpl.
  destruct (top !! "box") as [[| | | | |box]|]; simpl; try done.
  destruct (box !! module_name) as [[| | | | |section]|]; simpl; done.
Qed.

(** ** Folder lookup *)

Lemma find_folder_Some box_folder_name listing o :
  find_folder box_folder_name listing = Some o <->
  exists pre post,
    listing = pre ++ o :: post /\
    is_folder o = true /\ obj_name o = box_folder_name /\
    Forall (fun x => is_folder x = false \/ obj_name x <> box_folder_name) pre.
Proof.
  induction listing as [|x listing IH]; simpl.
  - split; [done|]. intros (pre & post & H & _). by destruct pre.
  - destruct (is_folder x && String.eqb (obj_name x) box_folder_name)%bool eqn:Hx.
    + apply andb_true_iff in Hx as [Hf Hn%String.eqb_eq]. split.
      * intros [= <-]. exists [], listing. split_and!; done.
      * intros (pre & post & Hl & Hfo & Hno & Hpre).
        destruct pre as [|y pre]; simpl in Hl.
        -- by injection Hl as ->.
        -- injection Hl as <- _. apply Forall_cons in Hpre as [[Hy|Hy] _]; congruence.
    + rewrite IH. split.
      * intros (pre & post & -> & Hfo & Hno & Hpre).
        exists (x :: pre), post. split_and!; try done.
        constructor; [|done].
        apply andb_false_iff in Hx as [Hx|Hx%String.eqb_neq]; auto.
      * intros (pre & post & Hl & Hfo & Hno & Hpre).
        destruct pre as [|y pre]; simpl in Hl.
        -- injection Hl as -> ->. rewrite Hfo in Hx. simpl in Hx.
           apply String.eqb_neq in Hx. congruence.
        -- injection Hl as <- ->. apply Forall_cons in Hpre as [_ Hpre].
           by exists pre, post.
Qed.

Lemma find_folder_None box_folder_name listing :
  find_folder box_folder_name listing = None <->
  Forall (fun x => is_folder x = false \/ obj_name x <> box_folder_name) listing.
Proof.
  induction listing as [|x listing IH]; simpl.
  - split; [constructor|done].
  - destruct (is_folder x && String.eqb (obj_name x) box_folder_name)%bool eqn:Hx.
    + apply andb_true_iff in Hx as [Hf Hn%String.eqb_eq]. split; [done|].
      intros [[Hy|Hy] _]%Forall_cons; congruence.
    + rewrite IH. split.
      * intros H. constructor; [|done].
        apply andb_false_iff in Hx as [Hx|Hx%String.eqb_neq]; auto.
      * by intros [_ H]%Forall_cons.
Qed.

(** X3: [get_box_object_based_on_name] answers the first entry of the
    parent's own listing that is a folder with exactly the requested name;
    entries of another type with that name are passed over, folders below
    the listing are not searched, and when there is no such entry the answer
    is [None], not an error.  A failure of the provider's lookup of the
    parent is raised as it is. *)
Theorem get_box_object_based_on_name_first client box_folder_name box_path_id root_dir :
  client box_path_id = Answer root_dir ->
  (forall o,
     get_box_object_based_on_name client box_folder_name box_path_id = Ok (Some o)
     <-> exists pre post,
           get_items root_dir = pre ++ o :: post /\
           is_folder o = true /\ obj_name o = box_folder_name /\
           Forall (fun x => is_folder x = false \/ obj_name x <> box_folder_name) pre)
  /\ (get_box_object_based_on_name client box_folder_name box_path_id = Ok None
      <-> Forall (fun x => is_folder x = false \/ obj_name x <> box_folder_name)
                 (get_items root_dir)).
Proof.
  intros Hroot. unfold get_box_object_based_on_name. rewrite Hroot. split.
  - intros o. rewrite <- find_folder_Some. split; congruence.
  - rewrite <- find_folder_None. split; congruence.
Qed.

(** ** Tree walk *)

(** Induction on a remote tree, with the property available for every entry
    of the listing. *)
Lemma box_object_tree_ind (P : box_object -> Prop) :
  (forall type name listing content delete,
     Forall P listing -> P (BoxObject type name listing content delete)) ->
  forall o, P o.
Proof.
  intros H. fix IH 1. intros [type name listing content delete].
  apply H. induction listing as [|x listing IHl]; constructor; [apply IH|exact IHl].
Qed.

Lemma walk_steps_count o : forall root,
  length (List.filter is_get_items (walk_from_folder_object root o)) = count_folders o
  /\ length (yields (walk_from_folder_object root o)) = count_folders o.
Proof.
  induction o as [type name listing content delete IH] using box_object_tree_ind.
  intros root. cbn [walk_from_folder_object count_folders List.filter is_get_items yields length].
  assert (H : forall l, Forall (fun o => forall root,
      length (List.filter is_get_items (walk_from_folder_object root o)) = count_folders o
      /\ length (yields (walk_from_folder_object root o)) = count_folders o) l ->
    length (List.filter is_get_items
              (flat_map (fun d => if is_folder d
                                  then walk_from_folder_object
                                         (path_join root (obj_name d)) d
                                  else []) l))
      = list_sum (List.map (fun d => if is_folder d then count_folders d else O) l)
    /\ length (yields
              (flat_map (fun d => if is_folder d
                                  then walk_from_folder_object
                                         (path_join root (obj_name d)) d
                                  else []) l))
      = list_sum (List.map (fun d => if is_folder d then count_folders d else O) l)).
  { induction 1 as [|x l Hx Hl [IH1 IH2]]; [done|].
    cbn [flat_map List.map list_sum].
    rewrite List.filter_app, yields_app, !length_app, IH1, IH2.
    destruct (is_folder x); [|done].
    destruct (Hx (path_join root (obj_name x))) as [-> ->]. done. }
  destruct (H listing IH) as [-> ->]. done.
Qed.

(** X4: the walk makes one listing call and one yield per folder of the
    tree (the starting folder and every folder below it along folder
    entries), and no listing call on anything else. *)
Theorem walk_one_listing_per_folder root o :
  length (List.filter is_get_items (walk_from_folder_object root o)) = count_folders o
  /\ length (yields (walk_from_folder_object root o)) = count_folders o
  /\ (forall f, In (GetItems f) (walk_from_folder_object root o) ->
                f = o \/ is_folder f = true).
Proof.
  destruct (walk_steps_count o root) as [H1 H2]. split_and!; try done.
  clear H1 H2. revert root.
  induction o as [type name listing content delete IH] using box_object_tree_ind.
  intros root f. cbn [walk_from_folder_object].
  intros [Hf|[Hf|Hf]]; [left; congruence|discriminate|].
  right. apply in_flat_map in Hf as (d & Hd & Hf).
  destruct (is_folder d) eqn:Hfolder; [|done].
  rewrite List.Forall_forall in IH.
  destruct (IH d Hd _ _ Hf) as [->|]; done.
Qed.

Lemma in_yields r ds fls steps :
  In (r, ds, fls) (yields steps) <-> In (Yield r ds fls) steps.
Proof.
  induction steps as [|[f|r' ds' fls'] steps IH]; simpl; [done| |].
  - rewrite IH. split; [by right|]. by intros [|].
  - rewrite IH. split; (intros [[= -> -> ->]|]; [by left|by right]).
Qed.

Lemma yields_filtered root o r ds fls :
  In (Yield r ds fls) (walk_from_folder_object root o) ->
  exists o',
    ds = List.filter is_folder (get_items o') /\
    fls = List.filter (fun x => negb (is_folder x)) (get_items o').
Proof.
  revert root.
  induction o as [type name listing content delete IH] using box_object_tree_ind.
  intros root. cbn [walk_from_folder_object].
  intros [Hf|[Hf|Hf]]; [discriminate| |].
  - injection Hf as <- <- <-. by eexists (BoxObject type name listing content delete).
  - apply in_flat_map in Hf as (d & Hd & Hf).
    destruct (is_folder d) eqn:Hfolder; [|done].
    rewrite List.Forall_forall in IH. by eapply IH.
Qed.

(** X5: the triples the walk yields are exactly the folders reachable from
    the starting folder through entries of type folder, each under the path
    joined from the names on the way, with its own listing split into the
    folder entries and all other entries (listing order kept). *)
Theorem walk_yields_reachable root o r ds fls :
  In (r, ds, fls) (yields (walk_from_folder_object root o))
  <-> exists o',
        reaches root o r o' /\
        ds = List.filter is_folder (get_items o') /\
        fls = List.filter (fun x => negb (is_folder x)) (get_items o').
Proof.
  rewrite in_yields. split.
  - revert root.
    induction o as [type name listing content delete IH] using box_object_tree_ind.
    intros root. cbn [walk_from_folder_object].
    intros [Hf|[Hf|Hf]]; [discriminate| |].
    + injection Hf as <- <- <-. eexists. split; [apply reaches_here|done].
    + apply in_flat_map in Hf as (d & Hd & Hf).
      destruct (is_folder d) eqn:Hfolder; [|done].
      rewrite List.Forall_forall in IH.
      destruct (IH d Hd _ Hf) as (o' & Hreach & -> & ->).
      exists o'. split; [|done]. by eapply reaches_down.
  - intros (o' & Hreach & -> & ->).
    induction Hreach as [root o|root o d root' o' Hd Hfolder Hreach IH].
    + rewrite walk_from_folder_object_unfold. right. by left.
    + destruct o as [type name listing content delete]. cbn [walk_from_folder_object].
      right. right. apply in_flat_map. exists d. split; [exact Hd|].
      by rewrite Hfolder.
Qed.

(** X6: in every triple the walk yields, the second component holds folders
    only and the third holds no folder; an entry whose type is anything but
    ['folder'] counts as a file. *)
Theorem walk_yields_partition root o r ds fls :
  In (r, ds, fls) (yields (walk_from_folder_object root o)) ->
  Forall (fun d => obj_type d = "folder") ds
  /\ Forall (fun f => obj_type f <> "folder") fls.
Proof.
  intros (o' & -> & ->)%in_yields%yields_filtered. split.
  - apply List.Forall_forall. intros d [_ Hd]%filter_In.
    by apply String.eqb_eq in Hd.
  - apply List.Forall_forall. intros f [_ Hf]%filter_In.
    apply negb_true_iff in Hf. by apply String.eqb_neq in Hf.
Qed.

(** ** The retry decorator on its own *)

Lemma hash_retry_no_mismatch {A} (n : nat) (func : M A) (w : World) :
  (forall message filename, fst (func w) <> Raise (BoxHashError message filename)) ->
  hash_retry (S n) func w = func w.
Proof.
  intros Hno. unfold hash_retry. cbn [hash_retry_loop]. unfold try_except.
  destruct (func w) as [[a|e] w1] eqn:Hrun; [done|].
  destruct e; try done. exfalso. by eapply Hno.
Qed.

(** X7: [hash_retry] leaves a call that returns, or that fails with anything
    but a hash mismatch, exactly as it is (one call, nothing logged, nothing
    removed); with a budget of zero it raises [HashRetryError] without
    calling the function at all. *)
Theorem hash_retry_passes_through {A} (n : nat) (func : M A) (w : World) :
  hash_retry 0 func w = (Raise HashRetryError, w)
  /\ ((forall message filename, fst (func w) <> Raise (BoxHashError message filename)) ->
      hash_retry (S n) func w = func w).
Proof.
  split; [done|apply hash_retry_no_mismatch].
Qed.

(** X8: when the file named by a hash mismatch is not there, the
    [os.remove] of the retry loop fails: the loop ends at once with
    [FileNotFoundError], after the warning, instead of retrying or raising
    [HashRetryError]. *)
Theorem hash_retry_remove_failure {A} (n : nat) (func : M A) (w w1 : World)
        (message filename : string) :
  func w = (Raise (BoxHashError message filename), w1) ->
  fs w1 !! filename = None ->
  hash_retry (S n) func w
  = (Raise (FileNotFoundError filename),
     extend w1 (fs w1) (tmpnames w1)
            [EvLog "warning" ("attempt 1/" +:+ pretty (S n)
                              +:+ " failed with error: " +:+ message)]).
Proof.
  intros Hrun Hmissing. unfold hash_retry. cbn [hash_retry_loop]. unfold try_except.
  rewrite Hrun. unfold bind at 1. unfold log at 1, emit at 1. cbn [apply_event].
  unfold bind at 1. unfold os_remove at 1, bind at 1, get_world.
  cbn [fs]. rewrite Hmissing. reflexivity.
Qed.

Section ExtraPipeline.

Context (gzip_compress : string -> list Byte.byte -> list Byte.byte)
        (crypt_encrypt : list Byte.byte -> pyval -> Z -> list Byte.byte)
        (content_digest : list Byte.byte -> pyval -> bool -> string).

Lemma first_free_None f dir cands :
  first_free f dir cands = None ->
  Forall (fun c => is_Some (f !! path_join dir ("." +:+ c))) cands.
Proof.
  induction cands as [|c cands IH]; simpl; [constructor|].
  destruct (f !! path_join dir ("." +:+ c)) eqn:Hc; [|discriminate].
  intros H. constructor; [by rewrite Hc|by apply IH].
Qed.

(** X9: [_savetemp] creates one new file and changes nothing else: in
    [dirname], or in the system temp directory when [dirname] is empty,
    under a dot-prefixed name that was free, holding the content (its gzip
    when [compress] is set) with mode 0600.  When it fails, because the
    directory is missing or every candidate name is taken, the filesystem and
    the trace are as before. *)
Theorem _savetemp_fresh_file content dirname compress w r w' :
  _savetemp gzip_compress content dirname compress w = (r, w') ->
  let dir := if String.eqb dirname "" then tempdir w else dirname in
  match r with
  | Ok t =>
    (exists c, In c (tmpnames w) /\ t = path_join dir ("." +:+ c)) /\
    fs w !! dir = Some Dir /\
    fs w !! t = None /\
    fs w' = <[t := File (if compress then gzip_compress t content else content) 384]>
              (fs w)
  | Raise e =>
    fs w' = fs w /\ trace w' = trace w /\
    (fs w !! dir <> Some Dir
     \/ Forall (fun c => is_Some (fs w !! path_join dir ("." +:+ c))) (tmpnames w))
  end.
Proof.
  intros Hrun dir. apply _savetemp_run in Hrun. cbv zeta in Hrun.
  fold dir in Hrun. unfold savetemp_dir in Hrun. fold dir in Hrun.
  destruct Hrun as [(t & names & Hdir & Hfree & -> & ->)
                   |(e & names & Hwhy & -> & Hsuf & -> & _)].
  - destruct (first_free_Some _ _ _ _ _ Hfree) as (Hfresh & _ & Hcand).
    split_and!; try done.
    apply list_elem_of_In, in_map_iff in Hcand as (c & <- & Hc). eauto.
  - unfold extend. cbn [fs trace]. rewrite app_nil_r. split_and!; try done.
    destruct Hwhy as [?|Hnone]; [by left|right]. by apply first_free_None.
Qed.

Lemma attempt_events_content name box_fullpath local_fullfile t data :
  List.filter is_content (attempt_events name box_fullpath local_fullfile t data)
  = [EvContent name].
Proof.
  unfold attempt_events, savetemp_events.
  cbn [app List.filter is_content].
  rewrite !List.filter_app. cbn [List.filter is_content].
  assert (H : List.filter is_content (List.map (EvWrite t) data) = []).
  { induction data as [|b data IH]; simpl; [done|]. by rewrite IH. }
  by rewrite H.
Qed.

(** X10: in the source as it is, with the call to [verify] commented out,
    the retry decorator never comes into play: [_save] is its body, run
    once, with exactly one content fetch, and it never raises
    [HashRetryError]. *)
Theorem _save_single_attempt o box_fullpath local_fullfile key compress w :
  let run := _save gzip_compress crypt_encrypt content_digest None
                   o box_fullpath local_fullfile key compress w in
  run = _save_body gzip_compress crypt_encrypt content_digest None
                   o box_fullpath local_fullfile key compress w
  /\ fst run <> Raise HashRetryError
  /\ exists evs, trace (snd run) = trace w ++ evs
                 /\ List.filter is_content evs = [EvContent (obj_name o)].
Proof.
  intros run.
  destruct (_save_body gzip_compress crypt_encrypt content_digest None
                       o box_fullpath local_fullfile key compress w)
    as [r w'] eqn:Hbody.
  pose proof Hbody as Hrun. apply _save_body_run in Hrun.
  assert (Hsame : run = (r, w')).
  { unfold run, _save. rewrite <- Hbody.
    apply hash_retry_no_mismatch.
    intros message filename. rewrite Hbody. cbn [fst]. intros ->.
    apply body_run_mismatch_inv in Hrun as (? & ? & ? & ? & _ & Hv & _). discriminate. }
  rewrite Hsame. cbn [fst snd]. split; [done|].
  destruct Hrun as [pe Hc|content e names Hc Hwhy Hsuf He1 He2
                   |content t names data h Hw Hv Hd
                   |content t names data e Hw Hver Hok He1 He2
                   |content t names data Hw Hver Hok].
  - split; [intros [= H]; by apply (proj2 (fetch_error_not_retry box_fullpath pe))|].
    by eexists.
  - split; [congruence|]. by eexists.
  - discriminate.
  - split; [congruence|]. eexists. split; [reflexivity|].
    rewrite List.filter_app, attempt_events_content. done.
  - split; [done|]. eexists. split; [reflexivity|].
    rewrite List.filter_app, attempt_events_content. done.
Qed.

End ExtraPipeline.

(** ** The retry bound *)

Lemma hash_retry_loop_step {A} (n : nat) (func : M A) remaining attempts w
      message t w1 data mode :
  func w = (Raise (BoxHashError message t), w1) ->
  fs w1 !! t = Some (File data mode) ->
  hash_retry_loop n func (S remaining) attempts w
  = hash_retry_loop n func remaining (attempts + 1)
                    (after_mismatch n attempts message t w1).
Proof.
  intros Hrun Hfile. cbn [hash_retry_loop]. unfold try_except. rewrite Hrun.
  unfold bind at 1. unfold log at 1, emit at 1. cbn [apply_event].
  unfold bind at 1. unfold os_remove at 1, bind at 1, get_world.
  cbn [fs]. rewrite Hfile. unfold emit at 1. cbn [apply_event fs tmpnames tempdir trace].
  unfold after_mismatch, extend, mismatch_events. by rewrite <- app_assoc.
Qed.

Lemma mismatch_attempt_removed {A} (func : M A) n attempts w message t w1 :
  mismatch_attempt func w message t w1 ->
  (exists data mode, fs w1 !! t = Some (File data mode))
  /\ fs (after_mismatch n attempts message t w1) = fs w
  /\ fs (after_mismatch n attempts message t w1) !! t = None.
Proof.
  intros (Hrun & Hfresh & data & mode & Hfs).
  unfold after_mismatch, extend. cbn [fs]. rewrite Hfs.
  rewrite delete_insert_eq, delete_id by done.
  split_and!; [|done|done]. exists data, mode. apply lookup_insert_eq.
Qed.

Section RetryBound.

Context (gzip_compress : string -> list Byte.byte -> list Byte.byte)
        (crypt_encrypt : list Byte.byte -> pyval -> Z -> list Byte.byte)
        (content_digest : list Byte.byte -> pyval -> bool -> string).

Lemma _save_is_its_body o box_fullpath local_fullfile key compress w :
  _save gzip_compress crypt_encrypt content_digest None
        o box_fullpath local_fullfile key compress w
  = _save_body gzip_compress crypt_encrypt content_digest None
               o box_fullpath local_fullfile key compress w
  /\ fst (_save gzip_compress crypt_encrypt content_digest None
                o box_fullpath local_fullfile key compress w) <> Raise HashRetryError.
Proof.
  destruct (_save_body gzip_compress crypt_encrypt content_digest None
                       o box_fullpath local_fullfile key compress w)
    as [r w'] eqn:Hbody.
  pose proof Hbody as Hrun. apply _save_body_run in Hrun.
  assert (Hsame : _save gzip_compress crypt_encrypt content_digest None
                        o box_fullpath local_fullfile key compress w = (r, w')).
  { unfold _save. rewrite <- Hbody. apply hash_retry_no_mismatch.
    intros message filename. rewrite Hbody. cbn [fst]. intros ->.
    apply body_run_mismatch_inv in Hrun as (? & ? & ? & ? & _ & Hv & _). discriminate. }
  rewrite Hsame. cbn [fst]. split; [done|].
  intros ->. inversion Hrun as [pe Hc Hpe| | | |]; subst;
    try match goal with H : HashRetryError <> HashRetryError |- _ => by destruct H end.
  by apply (proj2 (fetch_error_not_retry box_fullpath pe)).
Qed.

(** C3, as the code has it: the retry loop that decorates [_save], run on a
    function whose every attempt writes a temp file and reports a hash
    mismatch on it, makes exactly three attempts, removes the temp file of
    each attempt right after it, so that the filesystem ends as it started,
    and raises [HashRetryError].  [_save] itself, whose call to [verify] is
    commented out, never reports a mismatch: it is one run of its body and
    never raises [HashRetryError]. *)
Theorem hash_retry_three_attempts {A} (func : M A)
        w0 message1 t1 w1 message2 t2 w2 message3 t3 w3 :
  mismatch_attempt func w0 message1 t1 w1 ->
  mismatch_attempt func (after_mismatch 3 1 message1 t1 w1) message2 t2 w2 ->
  mismatch_attempt func (after_mismatch 3 2 message2 t2 w2) message3 t3 w3 ->
  hash_retry 3 func w0 = (Raise HashRetryError, after_mismatch 3 3 message3 t3 w3)
  /\ fs (after_mismatch 3 3 message3 t3 w3) = fs w0
  /\ fs (after_mismatch 3 1 message1 t1 w1) !! t1 = None
  /\ fs (after_mismatch 3 2 message2 t2 w2) !! t2 = None
  /\ fs (after_mismatch 3 3 message3 t3 w3) !! t3 = None
  /\ (forall o box_fullpath local_fullfile key compress w,
        _save gzip_compress crypt_encrypt content_digest None
              o box_fullpath local_fullfile key compress w
        = _save_body gzip_compress crypt_encrypt content_digest None
                     o box_fullpath local_fullfile key compress w
        /\ fst (_save gzip_compress crypt_encrypt content_digest None
                      o box_fullpath local_fullfile key compress w)
           <> Raise HashRetryError).
Proof.
  intros H1 H2 H3.
  destruct (mismatch_attempt_removed func 3 1 _ _ _ _ H1) as ((d1 & m1 & Hf1) & Hfs1 & Hg1).
  destruct (mismatch_attempt_removed func 3 2 _ _ _ _ H2) as ((d2 & m2 & Hf2) & Hfs2 & Hg2).
  destruct (mismatch_attempt_removed func 3 3 _ _ _ _ H3) as ((d3 & m3 & Hf3) & Hfs3 & Hg3).
  split_and!; try done.
  - unfold hash_retry.
    rewrite (hash_retry_loop_step 3 func 2 1 w0 _ _ _ _ _ (proj1 H1) Hf1).
    change (1 + 1) with 2.
    rewrite (hash_retry_loop_step 3 func 1 2 _ _ _ _ _ _ (proj1 H2) Hf2).
    change (2 + 1) with 3.
    rewrite (hash_retry_loop_step 3 func 0 3 _ _ _ _ _ _ (proj1 H3) Hf3).
    reflexivity.
  - by rewrite Hfs3, Hfs2, Hfs1.
  - intros. apply _save_is_its_body.
Qed.

End RetryBound.

(** ** Errors of the Box SDK in [save] *)

(** C4: at a file object whose [content()] fails with the not-found
    exception of the Box SDK, [_save] has no handler for it and [save] lets
    it through as it is: no [DownloadError] is raised.  Nothing local has
    been created by then. *)
Theorem save_leaks_box_not_found :
  let o := BoxObject "file" "a.txt" []
                     (Failure (OtherFailure "BoxAPIException" "404")) (Answer tt) in
  let run := save Sample.gzip Sample.encrypt Sample.digest None o ("root", "a.txt") "out"
                  VNone false false false Sample.ready_world in
  fst run = Raise (OtherError "BoxAPIException" "404")
  /\ (forall msg, fst run <> Raise (DownloadError msg))
  /\ fs (snd run) = fs Sample.ready_world.
Proof.
  intros o run.
  assert (Hrun : fst run = Raise (OtherError "BoxAPIException" "404"))
    by (vm_compute; reflexivity).
  split_and!.
  - exact Hrun.
  - intros msg. rewrite Hrun. discriminate.
  - vm_compute. reflexivity.
Qed.

Section ExtraSave.

Context (gzip_compress : string -> list Byte.byte -> list Byte.byte)
        (crypt_encrypt : list Byte.byte -> pyval -> Z -> list Byte.byte)
        (content_digest : list Byte.byte -> pyval -> bool -> string)
        (verification : option string).

Lemma retry_run_ok_fs o box_fullpath local_fullfile key compress
      n remaining attempts w r w' :
  retry_run gzip_compress content_digest verification
            o box_fullpath local_fullfile key compress n remaining attempts w r w' ->
  r = Ok tt ->
  exists t content,
    obj_content o = Answer content /\
    fs w' = <[local_fullfile := File (stored_bytes gzip_compress compress t content) 420]>
              (fs w).
Proof.
  induction 1 as [attempts w|remaining attempts w r w' Hbody Hr
                 |remaining attempts w message t w1 r w' Hbody Hloop IH];
    intros Hok; [discriminate| |].
  - subst r. inversion Hbody as [| | | |content t names data Hw Hver Hrn]; subst.
    destruct (written_fresh _ _ _ _ _ _ _ _ _ Hw) as (_ & _ & _ & Hc & ->).
    unfold extend. cbn [fs]. eauto.
  - apply body_run_mismatch_inv in Hbody
      as (content & names & data & h & Hw & Hv & Hd & -> & ->).
    destruct (written_fresh _ _ _ _ _ _ _ _ _ Hw) as (Hfresh & _).
    destruct (IH Hok) as (t' & content' & Hc & Hfs).
    unfold extend in Hfs. cbn [fs] in Hfs.
    rewrite delete_insert_eq, delete_id in Hfs by done. eauto.
Qed.

(** X11: a [_save] that returns changes exactly one entry of the local
    filesystem, the destination, which then holds the stored bytes with mode
    0644; no temp file is left, whatever number of attempts it took. *)
Theorem _save_changes_destination_only o box_fullpath local_fullfile key compress w w' :
  _save gzip_compress crypt_encrypt content_digest verification
        o box_fullpath local_fullfile key compress w = (Ok tt, w') ->
  exists t content,
    obj_content o = Answer content /\
    fs w' = <[local_fullfile := File (stored_bytes gzip_compress compress t content) 420]>
              (fs w).
Proof.
  intros Hrun. apply _save_run in Hrun. by eapply retry_run_ok_fs.
Qed.

(** X12: when the final rename fails (here: the destination is a
    directory), [_save] raises and leaves the temp file behind, fully
    written and already set to mode 0644; nothing cleans it up. *)
Theorem _save_failed_rename_leaves_temp o box_fullpath local_fullfile key compress
        w content t names :
  obj_content o = Answer content ->
  fs w !! savetemp_dir w (path_dirname local_fullfile) = Some Dir ->
  first_free (fs w) (savetemp_dir w (path_dirname local_fullfile)) (tmpnames w)
    = Some (t, names) ->
  fs w !! local_fullfile = Some Dir ->
  let run := _save gzip_compress crypt_encrypt content_digest None
                   o box_fullpath local_fullfile key compress w in
  (exists e, fst run = Raise e)
  /\ fs (snd run) !! t
     = Some (File (stored_bytes gzip_compress compress t content) 420)
  /\ fs (snd run) !! local_fullfile = Some Dir.
Proof.
  intros Hc Hdir Hfree Hdst run.
  destruct (first_free_Some _ _ _ _ _ Hfree) as (Hfresh & _ & _).
  assert (Hne : t <> local_fullfile) by congruence.
  destruct run as [r w'] eqn:Hrun. unfold run in Hrun.
  apply _save_run in Hrun.
  inversion Hrun as [|k a w0 r0 w0' Hbody Hr|k a w0 m t0 w1 r0 w0' Hbody Hloop]; subst.
  2:{ apply body_run_mismatch_inv in Hbody as (? & ? & ? & ? & _ & Hv & _).
      discriminate. }
  cbn [fst snd].
  inversion Hbody as [pe Hc'|content' e names' Hc' Hwhy
                     |c t' n d h Hw Hv
                     |c t' n d e Hw Hver Hok
                     |c t' n d Hw Hver Hok]; subst.
  - congruence.
  - destruct Hwhy; congruence.
  - discriminate.
  - inversion Hw as [c0 t0 n0 Hc0 Hdir0 Hfree0]; subst.
    assert (c = content) by congruence. assert (t' = t) by congruence. subst.
    unfold extend. cbn [fs]. split_and!; [by eexists|apply lookup_insert_eq|].
    by rewrite lookup_insert_ne.
  - exfalso. inversion Hw as [c0 t0 n0 Hc0 Hdir0 Hfree0]; subst.
    assert (t' = t) by congruence. subst.
    unfold rename_ok in Hok. rewrite (lookup_insert_ne _ t local_fullfile) in Hok by done.
    rewrite Hdst in Hok. by rewrite andb_false_r in Hok.
Qed.

(** X13: when the remote deletion after a successful download fails with an
    [ApiError], [save] raises [DeletionError] naming the remote path, and the
    downloaded file stays in place: the local filesystem is as [_save] left
    it. *)
Theorem save_deletion_failure_keeps_file o box_path_tuple out_base key compress
        w0 w w2 err :
  let box_fullpath := save_box_fullpath box_path_tuple in
  let local_fullfile := save_local_fullfile box_path_tuple out_base key compress in
  fs w0 !! local_fullfile = None ->
  dir_prepared local_fullfile w0 w ->
  _save gzip_compress crypt_encrypt content_digest verification
        o box_fullpath local_fullfile key compress w = (Ok tt, w2) ->
  obj_delete o = Failure (ApiFailure err) ->
  let run := save gzip_compress crypt_encrypt content_digest verification
                  o box_path_tuple out_base key compress true false w0 in
  fst run = Raise (DeletionError ("error deleting file " +:+ box_fullpath))
  /\ fs (snd run) = fs w2
  /\ exists t content,
       obj_content o = Answer content /\
       fs (snd run) !! local_fullfile
         = Some (File (stored_bytes gzip_compress compress t content) 420).
Proof.
  intros box_fullpath local_fullfile Hdst Hprep Hsave Hdel run.
  unfold run.
  rewrite (save_prepared gzip_compress crypt_encrypt content_digest verification
             o box_path_tuple out_base key compress true w0 w Hdst Hprep).
  cbv zeta. fold box_fullpath local_fullfile. rewrite Hsave.
  unfold delete_outcome. rewrite Hdel. cbn [fst snd]. unfold extend. cbn [fs].
  split_and!; try done.
  by apply _save_ok_exists in Hsave.
Qed.

(** X14: when the directory of the destination cannot be created, [save]
    raises the error of [os.makedirs] and stops there: nothing is fetched
    and no file is created, with or without [dry]. *)
Theorem save_directory_failure o box_path_tuple out_base key compress del dry w e w1 :
  let local_fullfile := save_local_fullfile box_path_tuple out_base key compress in
  fs w !! local_fullfile = None ->
  fs w !! path_dirname local_fullfile = None ->
  os_makedirs (path_dirname local_fullfile) w = (Raise e, w1) ->
  save gzip_compress crypt_encrypt content_digest verification
       o box_path_tuple out_base key compress del dry w = (Raise e, w1)
  /\ exists evs, trace w1 = trace w ++ evs /\ forallb is_mkdir evs = true.
Proof.
  intros local_fullfile Hdst Hdir Hmk. split.
  - rewrite save_unfold. cbv zeta. fold local_fullfile.
    rewrite bool_decide_eq_false_2 by (rewrite Hdst; by intros [? ?]).
    rewrite bool_decide_eq_false_2 by (rewrite Hdir; by intros [? ?]).
    by rewrite Hmk.
  - apply os_makedirs_run in Hmk as (evs & [Hw _ Hev _ _] & _).
    exists evs. split; [by rewrite Hw|done].
Qed.

End ExtraSave.

(** ** Destinations that leave the output directory *)

Lemma path_join_empty_l b : path_join "" b = b.
Proof. unfold path_join. by destruct (startswith_sep b). Qed.

Lemma no_sep_app a b : no_sep (a +:+ b) = (no_sep a && no_sep b)%bool.
Proof.
  induction a as [|c a IH]; [done|].
  change (String c a +:+ b) with (String c (a +:+ b)). cbn [no_sep].
  by rewrite IH, andb_assoc.
Qed.

Lemma no_sep_chars s :
  no_sep s = true -> Forall (fun c => Ascii.eqb c sep = false) (list_ascii_of_string s).
Proof.
  induction s as [|c s IH]; cbn [no_sep list_ascii_of_string]; [constructor|].
  intros [Hc Hs]%andb_true_iff. constructor; [|by apply IH].
  by apply negb_true_iff.
Qed.

Lemma drop_to_sep_no_sep l :
  Forall (fun c => Ascii.eqb c sep = false) l -> drop_to_sep l = [].
Proof. induction 1 as [|c l Hc Hl IH]; simpl; [done|]. by rewrite Hc. Qed.

Lemma path_dirname_no_sep s : no_sep s = true -> path_dirname s = "".
Proof.
  intros Hs. unfold path_dirname.
  rewrite drop_to_sep_no_sep; [done|].
  apply Forall_rev. by apply no_sep_chars.
Qed.

Lemma save_ext_no_sep key compress : no_sep (save_ext key compress) = true.
Proof. unfold save_ext. by destruct (truthy key), compress. Qed.

Section ExtraPaths.

Context (gzip_compress : string -> list Byte.byte -> list Byte.byte)
        (crypt_encrypt : list Byte.byte -> pyval -> Z -> list Byte.byte)
        (content_digest : list Byte.byte -> pyval -> bool -> string)
        (verification : option string).

(** X15: with an empty [out_base] and a remote name without a directory
    part, the destination has no directory part either, and [save] fails in
    [os.makedirs('')] with [FileNotFoundError], dry run or not, before
    anything is fetched: downloading into the current directory this way
    never works. *)
Theorem save_bare_name_fails o box_path_root box_path_name key compress del dry w :
  no_sep box_path_name = true ->
  fs w !! "" = None ->
  fs w !! (box_path_name +:+ save_ext key compress) = None ->
  save gzip_compress crypt_encrypt content_digest verification
       o (box_path_root, box_path_name) "" key compress del dry w
  = (Raise (FileNotFoundError ""), w).
Proof.
  intros Hname Hempty Hdst.
  assert (Hpath : save_local_fullfile (box_path_root, box_path_name) "" key compress
                  = box_path_name +:+ save_ext key compress)
    by apply path_join_empty_l.
  assert (Hdir : path_dirname (box_path_name +:+ save_ext key compress) = "").
  { apply path_dirname_no_sep. by rewrite no_sep_app, Hname, save_ext_no_sep. }
  rewrite save_unfold. cbv zeta. rewrite Hpath, Hdir.
  rewrite bool_decide_eq_false_2 by (rewrite Hdst; by intros [? ?]).
  rewrite bool_decide_eq_false_2 by (rewrite Hempty; by intros [? ?]).
  reflexivity.
Qed.

(** X16: a remote name that starts with a separator makes
    [os.path.join] drop [out_base]: the destination is the remote name
    itself plus the extension, outside the output directory, and [save]
    behaves the same for every [out_base]. *)
Theorem save_absolute_name_ignores_out_base o box_path_root box_path_name
        out_base key compress del dry :
  startswith_sep box_path_name = true ->
  save_local_fullfile (box_path_root, box_path_name) out_base key compress
  = box_path_name +:+ save_ext key compress
  /\ forall out_base' w,
       save gzip_compress crypt_encrypt content_digest verification
            o (box_path_root, box_path_name) out_base key compress del dry w
       = save gzip_compress crypt_encrypt content_digest verification
              o (box_path_root, box_path_name) out_base' key compress del dry w.
Proof.
  intros Habs.
  assert (Hpath : forall out,
    save_local_fullfile (box_path_root, box_path_name) out key compress
    = box_path_name +:+ save_ext key compress).
  { intros out. unfold save_local_fullfile, path_join.
    destruct box_path_name as [|c s]; [discriminate|].
    change (String c s +:+ save_ext key compress)
      with (String c (s +:+ save_ext key compress)).
    cbn [startswith_sep] in *. by rewrite Habs. }
  split; [apply Hpath|].
  intros out_base' w. rewrite !save_unfold. cbv zeta. by rewrite !Hpath.
Qed.

End ExtraPaths.

(** ** Deletion, and the resolver with the walk *)


(** X18: [_delete] calls the provider's [delete()] once and nothing else:
    the local filesystem and the temp-name supply stay as they are; it
    returns when [delete()] returns, and turns a dropbox [ApiError] of any
    kind (not only not-found, unlike the content fetch in [_save]) into a
    [DeletionError] that names the remote path. *)
Theorem _delete_contract o box_fullpath w :
  let run := _delete o box_fullpath w in
  trace (snd run) = trace w ++ [EvRemoteDelete (obj_name o)]
  /\ fs (snd run) = fs w
  /\ tmpnames (snd run) = tmpnames w
  /\ (forall u, obj_delete o = Answer u -> fst run = Ok tt)
  /\ (forall err, obj_delete o = Failure (ApiFailure err) ->
        fst run = Raise (DeletionError ("error deleting file " +:+ box_fullpath))).
Proof.
  intros run. unfold run. rewrite _delete_run. unfold delete_outcome.
  cbn [fst snd]. split_and!; try done.
  - by intros u ->.
  - by intros err ->.
Qed.

(** X19: the folder that [get_box_object_based_on_name] finds under a
    parent is one of the subfolders in the first triple that the walk of that
    parent yields, so that the walk goes on to list it under
    join(root, name). *)
Theorem resolved_folder_is_walked client box_folder_name box_path_id root_dir o root :
  client box_path_id = Answer root_dir ->
  get_box_object_based_on_name client box_folder_name box_path_id = Ok (Some o) ->
  (exists files rest,
     yields (walk_from_folder_object root root_dir)
     = (root, List.filter is_folder (get_items root_dir), files) :: rest
     /\ In o (List.filter is_folder (get_items root_dir)))
  /\ In (GetItems o) (walk_from_folder_object root root_dir)
  /\ exists ds fls,
       In (path_join root box_folder_name, ds, fls)
          (yields (walk_from_folder_object root root_dir)).
Proof.
  intros Hroot Hget. unfold get_box_object_based_on_name in Hget.
  rewrite Hroot in Hget. injection Hget as Hfind.
  apply find_folder_Some in Hfind as (pre & post & Hl & Hfolder & Hname & _).
  assert (Hin : In o (get_items root_dir)).
  { rewrite Hl. apply in_or_app. right. by left. }
  split_and!.
  - rewrite walk_from_folder_object_unfold. cbn [yields].
    eexists _, _. split; [reflexivity|]. apply filter_In. done.
  - rewrite walk_from_folder_object_unfold. right. right.
    apply in_flat_map. exists o. split; [by apply filter_In|].
    rewrite walk_from_folder_object_unfold. by left.
  - eexists _, _. apply in_yields.
    rewrite walk_from_folder_object_unfold. right. right.
    apply in_flat_map. exists o. split; [by apply filter_In|].
    rewrite Hname. rewrite walk_from_folder_object_unfold. right. by left.
Qed.

(** ** The further properties at sample inputs *)

Lemma lookups_need_mappings_witness :
  (exists msg, delete_on_success (VDict {[ "box" := VNone ]}) "mindlamp"
               = Raise (AttributeError msg))
  /\ (exists msg, base (VDict {[ "box" := VNone ]}) "mindlamp"
                  = Raise (AttributeError msg)).
Proof.
  apply (lookups_need_mappings {[ "box" := VNone ]} "mindlamp" VNone).
  - intros d. discriminate.
  - left. reflexivity.
Defined.

Lemma get_box_object_based_on_name_first_witness :
  let file name := BoxObject "file" name [] (Answer []) (Answer tt) in
  let folder name listing :=
    BoxObject "folder" name listing (Failure (OtherFailure "" ""))
              (Failure (OtherFailure "" "")) in
  let client (id : string) :=
    Answer (folder "All Files" [file "study"; folder "study" [file "a.txt"];
                                folder "study" []]) in
  get_box_object_based_on_name client "study" "0"
  = Ok (Some (folder "study" [file "a.txt"])).
Proof.
  intros file folder client.
  apply (proj1 (get_box_object_based_on_name_first client "study" "0" _ eq_refl)).
  exists [file "study"], [folder "study" []].
  split_and!; try reflexivity.
  constructor; [left; reflexivity|constructor].
Defined.

Lemma walk_yields_partition_witness :
  let file name := BoxObject "file" name [] (Answer []) (Answer tt) in
  let link name := BoxObject "web_link" name [] (Answer []) (Answer tt) in
  let folder name listing :=
    BoxObject "folder" name listing (Failure (OtherFailure "" ""))
              (Failure (OtherFailure "" "")) in
  Forall (fun d => obj_type d = "folder") [folder "sub" []]
  /\ Forall (fun f => obj_type f <> "folder") [file "a.txt"; link "site"].
Proof.
  intros file link folder.
  apply (walk_yields_partition "root"
           (folder "root" [file "a.txt"; folder "sub" []; link "site"]) "root").
  left. reflexivity.
Defined.

Lemma hash_retry_passes_through_witness :
  hash_retry 3 (raise (A := unit) (DownloadError "gone")) Sample.empty_world
  = (Raise (DownloadError "gone"), Sample.empty_world).
Proof.
  apply (proj2 (hash_retry_passes_through 2 (raise (DownloadError "gone"))
                  Sample.empty_world)).
  intros message filename. vm_compute. discriminate.
Defined.

Lemma hash_retry_remove_failure_witness :
  fst (hash_retry 3 (raise (A := unit) (BoxHashError "mismatch" "out/.gone"))
                  Sample.ready_world)
  = Raise (FileNotFoundError "out/.gone").
Proof.
  rewrite (hash_retry_remove_failure 2 (raise (BoxHashError "mismatch" "out/.gone"))
             Sample.ready_world Sample.ready_world "mismatch" "out/.gone").
  - reflexivity.
  - reflexivity.
  - vm_compute. reflexivity.
Defined.

Lemma _savetemp_fresh_file_witness :
  fs Sample.ready_world !! "out/.k3x9q0aa" = None
  /\ fs (snd (_savetemp Sample.gzip [Init.Byte.x68; Init.Byte.x69] "out" false
                        Sample.ready_world))
     = <[ "out/.k3x9q0aa" := File [Init.Byte.x68; Init.Byte.x69] 384 ]>
         (fs Sample.ready_world).
Proof.
  pose proof (_savetemp_fresh_file Sample.gzip [Init.Byte.x68; Init.Byte.x69] "out" false
                Sample.ready_world (Ok "out/.k3x9q0aa")
                (snd (_savetemp Sample.gzip [Init.Byte.x68; Init.Byte.x69] "out" false
                                Sample.ready_world))) as H.
  cbv zeta in H. destruct H as (_ & _ & Hfresh & Hfs).
  - vm_compute. reflexivity.
  - split; [exact Hfresh|exact Hfs].
Defined.

Lemma _save_changes_destination_only_witness :
  exists t content,
    obj_content Sample.remote_file = Answer content
    /\ fs (snd (_save Sample.gzip Sample.encrypt Sample.digest None Sample.remote_file
                      "root/a.txt" "out/a.txt" VNone true Sample.ready_world))
       = <[ "out/a.txt" := File (stored_bytes Sample.gzip true t content) 420 ]>
           (fs Sample.ready_world).
Proof.
  apply (_save_changes_destination_only Sample.gzip Sample.encrypt Sample.digest None
           Sample.remote_file "root/a.txt" "out/a.txt" VNone true Sample.ready_world).
  vm_compute. reflexivity.
Defined.

Lemma _save_failed_rename_leaves_temp_witness :
  let w := mkWorld {[ "out" := Dir; "out/a.txt" := Dir ]} ["k3x9q0aa"] "/tmp" [] in
  fs (snd (_save Sample.gzip Sample.encrypt Sample.digest None Sample.remote_file
                 "root/a.txt" "out/a.txt" VNone false w)) !! "out/.k3x9q0aa"
  = Some (File [Init.Byte.x68; Init.Byte.x69] 420).
Proof.
  intros w.
  destruct (_save_failed_rename_leaves_temp Sample.gzip Sample.encrypt Sample.digest
              Sample.remote_file "root/a.txt" "out/a.txt" VNone false w
              [Init.Byte.x68; Init.Byte.x69] "out/.k3x9q0aa" [])
    as (_ & Htemp & _).
  - reflexivity.
  - vm_compute. reflexivity.
  - vm_compute. reflexivity.
  - vm_compute. reflexivity.
  - exact Htemp.
Defined.

Lemma save_deletion_failure_keeps_file_witness :
  let o := BoxObject "file" "a.txt" [] (Answer [Init.Byte.x68; Init.Byte.x69])
                     (Failure (ApiFailure (mkApiError false false))) in
  fst (save Sample.gzip Sample.encrypt Sample.digest None o ("root", "a.txt") "out"
            VNone false true false Sample.ready_world)
  = Raise (DeletionError "error deleting file root/a.txt").
Proof.
  intros o.
  destruct (save_deletion_failure_keeps_file Sample.gzip Sample.encrypt Sample.digest
              None o ("root", "a.txt") "out" VNone false
              Sample.ready_world Sample.ready_world
              (snd (_save Sample.gzip Sample.encrypt Sample.digest None o
                          "root/a.txt" "out/a.txt" VNone false Sample.ready_world))
              (mkApiError false false))
    as (Hraise & _).
  - vm_compute. reflexivity.
  - left. split; [|reflexivity]. vm_compute. eexists. reflexivity.
  - vm_compute. reflexivity.
  - reflexivity.
  - exact Hraise.
Defined.

Lemma save_directory_failure_witness :
  let w := mkWorld {[ "out" := File [] 420 ]} ["k3x9q0aa"] "/tmp" [] in
  save Sample.gzip Sample.encrypt Sample.digest None Sample.remote_file
       ("root", "a.txt") "out/sub" VNone false true false w
  = (Raise (NotADirectoryError "out/sub"), w).
Proof.
  intros w.
  apply (save_directory_failure Sample.gzip Sample.encrypt Sample.digest None
           Sample.remote_file ("root", "a.txt") "out/sub" VNone false true false w).
  - vm_compute. reflexivity.
  - vm_compute. reflexivity.
  - vm_compute. reflexivity.
Defined.

Lemma save_bare_name_fails_witness :
  save Sample.gzip Sample.encrypt Sample.digest None Sample.remote_file
       ("root", "a.txt") "" VNone false false true Sample.ready_world
  = (Raise (FileNotFoundError ""), Sample.ready_world).
Proof.
  apply (save_bare_name_fails Sample.gzip Sample.encrypt Sample.digest None
           Sample.remote_file "root" "a.txt" VNone false false true Sample.ready_world).
  - reflexivity.
  - vm_compute. reflexivity.
  - vm_compute. reflexivity.
Defined.

Lemma save_absolute_name_ignores_out_base_witness :
  save_local_fullfile ("root", "/etc/a.txt") "out" (VStr "secret") true
  = "/etc/a.txt.lock.gz".
Proof.
  apply (proj1 (save_absolute_name_ignores_out_base Sample.gzip Sample.encrypt
                  Sample.digest None Sample.remote_file "root" "/etc/a.txt" "out"
                  (VStr "secret") true false false eq_refl)).
Defined.


Lemma _delete_contract_witness :
  fst (_delete Sample.remote_file "root/a.txt" Sample.ready_world) = Ok tt
  /\ fst (_delete Sample.missing_file "root/a.txt" Sample.ready_world) = Ok tt.
Proof.
  split.
  - apply (proj1 (proj2 (proj2 (proj2 (_delete_contract Sample.remote_file
                                         "root/a.txt" Sample.ready_world)))) tt).
    reflexivity.
  - apply (proj1 (proj2 (proj2 (proj2 (_delete_contract Sample.missing_file
                                         "root/a.txt" Sample.ready_world)))) tt).
    reflexivity.
Defined.

Lemma resolved_folder_is_walked_witness :
  let file name := BoxObject "file" name [] (Answer []) (Answer tt) in
  let folder name listing :=
    BoxObject "folder" name listing (Failure (OtherFailure "" ""))
              (Failure (OtherFailure "" "")) in
  let parent := folder "All Files" [file "study"; folder "study" [file "a.txt"]] in
  In (GetItems (folder "study" [file "a.txt"])) (walk_from_folder_object "" parent).
Proof.
  intros file folder parent.
  apply (resolved_folder_is_walked (fun _ => Answer parent) "study" "0" parent
           (folder "study" [file "a.txt"]) "").
  - reflexivity.
  - reflexivity.
Defined.

(** ** The retry bound at sample inputs *)

(** With a hasher that rejects every digest, [_save] still commits after one
    fetch: no retry, no removal, no [HashRetryError]. *)
Lemma _save_ignores_hash_mismatch :
  let run := _save Sample.gzip Sample.encrypt Sample.digest None Sample.remote_file
                   "root/a.txt" "out/a.txt" VNone false Sample.ready_world in
  Sample.digest [Init.Byte.x68; Init.Byte.x69] VNone false <> "expected"
  /\ fst run = Ok tt
  /\ fst run <> Raise HashRetryError
  /\ List.filter is_content (trace (snd run)) = [EvContent "a.txt"]
  /\ List.filter is_remove (trace (snd run)) = []
  /\ fs (snd run) !! "out/a.txt" = Some (File [Init.Byte.x68; Init.Byte.x69] 420).
Proof.
  intros run.
  assert (Hok : fst run = Ok tt) by (vm_compute; reflexivity).
  split_and!; try (vm_compute; reflexivity).
  - vm_compute. discriminate.
  - rewrite Hok. discriminate.
Qed.

Lemma hash_retry_three_attempts_witness :
  fst (hash_retry 3 Sample.mismatching_attempt Sample.ready_world) = Raise HashRetryError
  /\ fs (snd (hash_retry 3 Sample.mismatching_attempt Sample.ready_world))
     = fs Sample.ready_world.
Proof.
  pose (w1 := snd (Sample.mismatching_attempt Sample.ready_world)).
  pose (a1 := after_mismatch 3 1 "hash mismatch detected for out/.k3x9q0aa"
                             "out/.k3x9q0aa" w1).
  pose (w2 := snd (Sample.mismatching_attempt a1)).
  pose (a2 := after_mismatch 3 2 "hash mismatch detected for out/.p7w1m2bb"
                             "out/.p7w1m2bb" w2).
  pose (w3 := snd (Sample.mismatching_attempt a2)).
  destruct (hash_retry_three_attempts Sample.gzip Sample.encrypt Sample.digest
              Sample.mismatching_attempt Sample.ready_world
              "hash mismatch detected for out/.k3x9q0aa" "out/.k3x9q0aa" w1
              "hash mismatch detected for out/.p7w1m2bb" "out/.p7w1m2bb" w2
              "hash mismatch detected for out/.z5t8v4cc" "out/.z5t8v4cc" w3)
    as (Hrun & Hfs & _).
  - split_and!; [vm_compute; reflexivity|vm_compute; reflexivity|].
    exists [Init.Byte.x68; Init.Byte.x69], 384%Z. vm_compute. reflexivity.
  - split_and!; [vm_compute; reflexivity|vm_compute; reflexivity|].
    exists [Init.Byte.x68; Init.Byte.x69], 384%Z. vm_compute. reflexivity.
  - split_and!; [vm_compute; reflexivity|vm_compute; reflexivity|].
    exists [Init.Byte.x68; Init.Byte.x69], 384%Z. vm_compute. reflexivity.
  - rewrite Hrun. split; [reflexivity|exact Hfs].
Defined.
